(** * SECURE ASF password manager: the authentication and vault engine

    A shallow embedding of [DynamicPasswordManager] (scirpt3.py) and of the
    helpers it calls, followed by the properties of the lockout policy, the
    second factor, key derivation, the field sentinels and the retrieval
    placeholders.

    Python [str] values are modelled as [string]; a character is a code point
    below 256.  Python integers are unbounded and are modelled as [Z]. *)

From Stdlib Require Import ZArith Lia Ascii String List DecimalString.
From Stdlib.Strings Require Import Byte.
From stdpp Require Import base option list gmap strings.

Local Open Scope Z_scope.
Local Open Scope string_scope.

(** ** Python string helpers *)

Module PyStr.

(** The newline character written [\n] in the source. *)
Definition nl : string := String "010"%char EmptyString.

(** The double quote character. *)
Definition dquote : ascii := "034"%char.

(** [str(n)] for an integer [n]. *)
Definition str_of_Z (z : Z) : string := NilZero.string_of_int (Z.to_int z).

(** [c.isspace()]: the code points below 256 that [str.strip()] removes. *)
Definition isspace (c : ascii) : bool :=
  let n := nat_of_ascii c in
  ((9 <=? n)%nat && (n <=? 13)%nat)
  || ((28 <=? n)%nat && (n <=? 32)%nat)
  || (n =? 133)%nat || (n =? 160)%nat.

Fixpoint lstrip (s : string) : string :=
  match s with
  | EmptyString => EmptyString
  | String c s' => if isspace c then lstrip s' else s
  end.

Fixpoint rstrip (s : string) : string :=
  match s with
  | EmptyString => EmptyString
  | String c s' =>
      match rstrip s' with
      | EmptyString => if isspace c then EmptyString else String c EmptyString
      | r => String c r
      end
  end.

(** [s.strip()] *)
Definition strip (s : string) : string := rstrip (lstrip s).

(** [c.lower()] on code points below 256. *)
Definition lower_char (c : ascii) : ascii :=
  let n := nat_of_ascii c in
  if ((65 <=? n)%nat && (n <=? 90)%nat)
     || ((192 <=? n)%nat && (n <=? 222)%nat && negb (n =? 215)%nat)
  then ascii_of_nat (n + 32) else c.

(** [s.lower()] *)
Fixpoint lower (s : string) : string :=
  match s with
  | EmptyString => EmptyString
  | String c s' => String (lower_char c) (lower s')
  end.

(** [pat in s] *)
Fixpoint contains (pat s : string) : bool :=
  if String.prefix pat s then true
  else match s with
       | EmptyString => false
       | String _ s' => contains pat s'
       end.

(** Truth value of a string: [bool(s)]. *)
Definition truthy (s : string) : bool := negb (String.eqb s "").

(** [a or b] on strings. *)
Definition or_else (a b : string) : string := if truthy a then a else b.

(** [string.ascii_letters + string.digits + string.punctuation] *)
Definition ascii_letters : string :=
  "abcdefghijklmnopqrstuvwxyzABCDEFGHIJKLMNOPQRSTUVWXYZ".
Definition digits : string := "0123456789".
Definition punctuation : string :=
  String "!"%char (String dquote "#$%&'()*+,-./:;<=>?@[\]^_`{|}~").

End PyStr.

(** ** External primitives

    argon2's [PasswordHasher], PBKDF2-HMAC-SHA256, Fernet and pyotp are
    libraries, not code of the repository.  They are taken as an interface;
    every theorem below holds for every implementation of it. *)

(** The three ways [PasswordHasher.verify] can end: it returns [True], raises
    [VerifyMismatchError], or raises another error (a malformed hash). *)
Inductive VerifyOutcome : Type :=
| VerifyOk
| VerifyMismatch
| VerifyFailure (msg : string).

Class Primitives : Type := {
  (** [ph.hash(secret)] with the 16 random salt bytes it draws. *)
  ph_hash : string -> list byte -> string;
  (** [ph.verify(hash, secret)] *)
  ph_verify : string -> string -> VerifyOutcome;
  (** [base64.urlsafe_b64encode(PBKDF2HMAC(SHA256, 32, salt, 100000).derive(pw.encode()))] *)
  pbkdf2_key : list byte -> string -> list byte;
  (** [Fernet(key).encrypt(s.encode()).decode()] with the 16 random bytes of
      the initialisation vector and the timestamp it reads. *)
  fernet_encrypt : list byte -> string -> list byte -> Z -> string;
  (** [Fernet(key).decrypt(tok.encode()).decode()]; [None] when it raises. *)
  fernet_decrypt : list byte -> string -> option string;
  (** [pyotp.TOTP(secret).verify(code)] at a given time. *)
  totp_verify : string -> string -> Z -> bool
}.

(** ** Exceptions and the effect monad *)

Inductive Exn : Type :=
| VerifyMismatchError
| VerificationError (msg : string)
| ValueError (msg : string)
| AttributeError (msg : string)
| InvalidToken
| EOFError.

(** [str(e)] *)
Definition exn_str (e : Exn) : string :=
  match e with
  | VerifyMismatchError => "The password does not match the supplied hash"
  | VerificationError msg => msg
  | ValueError msg => msg
  | AttributeError msg => msg
  | InvalidToken => ""
  | EOFError => "EOF when reading a line"
  end.

Inductive Outcome (A : Type) : Type :=
| Ret (a : A)
| Raise (e : Exn).
Arguments Ret {A} a.
Arguments Raise {A} e.

(** ** The persistent store *)

Record LockoutData : Type := {
  failed_attempts : Z;
  lockout_until : Z
}.

(** Modelled from the spec: [script3_sql.DatabaseConnector] is not part of the
    sources.  Section 6 of the specification describes it as a record store
    keyed by username with get/set/delete operations; it is modelled as one
    finite map per kind of record. *)
Record Db : Type := {
  db_password : gmap string string;
  db_pin : gmap string string;
  db_salt : gmap string (list byte);
  db_lockout : gmap string LockoutData;
  db_totp : gmap string string;
  db_sites : gmap (string * string) (string * string);
  db_wallets : gmap (string * string) (string * string * string)
}.

Definition set_db_password (f : gmap string string -> gmap string string) (d : Db) : Db :=
  {| db_password := f (db_password d); db_pin := db_pin d; db_salt := db_salt d;
     db_lockout := db_lockout d; db_totp := db_totp d; db_sites := db_sites d;
     db_wallets := db_wallets d |}.

Definition set_db_pin (f : gmap string string -> gmap string string) (d : Db) : Db :=
  {| db_password := db_password d; db_pin := f (db_pin d); db_salt := db_salt d;
     db_lockout := db_lockout d; db_totp := db_totp d; db_sites := db_sites d;
     db_wallets := db_wallets d |}.

Definition set_db_salt (f : gmap string (list byte) -> gmap string (list byte)) (d : Db) : Db :=
  {| db_password := db_password d; db_pin := db_pin d; db_salt := f (db_salt d);
     db_lockout := db_lockout d; db_totp := db_totp d; db_sites := db_sites d;
     db_wallets := db_wallets d |}.

Definition set_db_lockout (f : gmap string LockoutData -> gmap string LockoutData) (d : Db) : Db :=
  {| db_password := db_password d; db_pin := db_pin d; db_salt := db_salt d;
     db_lockout := f (db_lockout d); db_totp := db_totp d; db_sites := db_sites d;
     db_wallets := db_wallets d |}.

Definition set_db_totp (f : gmap string string -> gmap string string) (d : Db) : Db :=
  {| db_password := db_password d; db_pin := db_pin d; db_salt := db_salt d;
     db_lockout := db_lockout d; db_totp := f (db_totp d); db_sites := db_sites d;
     db_wallets := db_wallets d |}.

Definition set_db_sites
    (f : gmap (string * string) (string * string) -> gmap (string * string) (string * string))
    (d : Db) : Db :=
  {| db_password := db_password d; db_pin := db_pin d; db_salt := db_salt d;
     db_lockout := db_lockout d; db_totp := db_totp d; db_sites := f (db_sites d);
     db_wallets := db_wallets d |}.

Definition set_db_wallets
    (f : gmap (string * string) (string * string * string)
         -> gmap (string * string) (string * string * string))
    (d : Db) : Db :=
  {| db_password := db_password d; db_pin := db_pin d; db_salt := db_salt d;
     db_lockout := db_lockout d; db_totp := db_totp d; db_sites := db_sites d;
     db_wallets := f (db_wallets d) |}.

(** The calls of the store, recorded in the trace. *)
Inductive DbCall : Type :=
| GetLockoutData | SetLockoutData | ResetLockoutData
| GetUserPassword | UpdateMasterPassword | CreateUserWithPin
| GetRecoveryPin
| GetUserSalt | StoreUserSalt
| GetTotpSecret | SetTotpSecret | DeleteTotpSecret
| StoreSite | GetSiteCredentials
| StoreWallet | GetWallet.

(** What an operation does that a caller or an observer can see. *)
Inductive Event : Type :=
| EvDb (c : DbCall) (user : string)
| EvHash (secret : string)
| EvHashVerify (hash secret : string)
| EvTotpVerify (secret code : string)
| EvPrint (line : string).

(** ** The world an operation runs in

    The store, the session object's cached cipher ([self.fer], absent until a
    key is loaded), the wall clock as the sequence of readings [time.time()]
    returns, the operating system's randomness as the sequence of words it
    hands out, the lines waiting on standard input, and the trace. *)
Record World : Type := {
  w_db : Db;
  w_fer : option (list byte);
  w_clock : nat -> Z;
  w_ticks : nat;
  w_entropy : nat -> nat;
  w_drawn : nat;
  w_stdin : list string;
  w_trace : list Event
}.

Definition with_db (f : Db -> Db) (w : World) : World :=
  {| w_db := f (w_db w); w_fer := w_fer w; w_clock := w_clock w; w_ticks := w_ticks w;
     w_entropy := w_entropy w; w_drawn := w_drawn w; w_stdin := w_stdin w;
     w_trace := w_trace w |}.

Definition with_fer (k : option (list byte)) (w : World) : World :=
  {| w_db := w_db w; w_fer := k; w_clock := w_clock w; w_ticks := w_ticks w;
     w_entropy := w_entropy w; w_drawn := w_drawn w; w_stdin := w_stdin w;
     w_trace := w_trace w |}.

Definition with_ticks (n : nat) (w : World) : World :=
  {| w_db := w_db w; w_fer := w_fer w; w_clock := w_clock w; w_ticks := n;
     w_entropy := w_entropy w; w_drawn := w_drawn w; w_stdin := w_stdin w;
     w_trace := w_trace w |}.

Definition with_drawn (n : nat) (w : World) : World :=
  {| w_db := w_db w; w_fer := w_fer w; w_clock := w_clock w; w_ticks := w_ticks w;
     w_entropy := w_entropy w; w_drawn := n; w_stdin := w_stdin w;
     w_trace := w_trace w |}.

Definition with_stdin (l : list string) (w : World) : World :=
  {| w_db := w_db w; w_fer := w_fer w; w_clock := w_clock w; w_ticks := w_ticks w;
     w_entropy := w_entropy w; w_drawn := w_drawn w; w_stdin := l;
     w_trace := w_trace w |}.

Definition with_trace (t : list Event) (w : World) : World :=
  {| w_db := w_db w; w_fer := w_fer w; w_clock := w_clock w; w_ticks := w_ticks w;
     w_entropy := w_entropy w; w_drawn := w_drawn w; w_stdin := w_stdin w;
     w_trace := t |}.

(** State and exceptions: a computation maps a world to an outcome and the
    world it leaves behind. *)
Definition M (A : Type) : Type := World -> Outcome A * World.

Definition ret {A : Type} (a : A) : M A := fun w => (Ret a, w).

Definition raise {A : Type} (e : Exn) : M A := fun w => (Raise e, w).

Definition bind {A B : Type} (m : M A) (k : A -> M B) : M B :=
  fun w =>
    match m w with
    | (Ret a, w') => k a w'
    | (Raise e, w') => (Raise e, w')
    end.

(** [try: m  except Exception as e: h e] *)
Definition try_except {A : Type} (m : M A) (h : Exn -> M A) : M A :=
  fun w =>
    match m w with
    | (Ret a, w') => (Ret a, w')
    | (Raise e, w') => h e w'
    end.

Declare Scope py_scope.
Delimit Scope py_scope with py.
Notation "x <- c ;; k" := (bind c (fun x => k))
  (at level 100, c at next level, right associativity) : py_scope.
Notation "c ;;; k" := (bind c (fun _ => k))
  (at level 100, right associativity) : py_scope.
Local Open Scope py_scope.

Definition emit (e : Event) : M unit :=
  fun w => (Ret tt, with_trace (w_trace w ++ [e]) w).

(** [print(line)] *)
Definition print (line : string) : M unit := emit (EvPrint line).

(** [int(time.time())] *)
Definition time_time : M Z :=
  fun w => (Ret (w_clock w (w_ticks w)), with_ticks (S (w_ticks w)) w).

Definition byte_of_nat (n : nat) : byte :=
  match Byte.of_nat (n mod 256) with
  | Some b => b
  | None => x00
  end.

(** The [n] bytes found at position [start] of an entropy stream. *)
Definition drawn_bytes (entropy : nat -> nat) (start n : nat) : list byte :=
  map (fun i => byte_of_nat (entropy i)) (seq start n).

(** [os.urandom(n)] *)
Definition os_urandom (n : nat) : M (list byte) :=
  fun w =>
    (Ret (drawn_bytes (w_entropy w) (w_drawn w) n), with_drawn (w_drawn w + n)%nat w).

(** [alphabet[r % len(alphabet)]]: the character an entropy word selects. *)
Definition pick (alphabet : string) (r : nat) : ascii :=
  match String.get (r mod String.length alphabet) alphabet with
  | Some c => c
  | None => "000"%char
  end.

(** [secrets.choice(alphabet)]: the character at a uniformly drawn index. *)
Definition secrets_choice (alphabet : string) : M ascii :=
  fun w => (Ret (pick alphabet (w_entropy w (w_drawn w))), with_drawn (S (w_drawn w)) w).

(** [get_secure_input(prompt, is_password)]: read lines until one contains
    [esc] (the caller goes back, [None]) or is not empty.  Reading past the
    end of the input raises [EOFError], as [input] does.  The prompt itself is
    not a [print] and is left out of the trace. *)
Fixpoint read_secure_input (lines : list string) : Outcome (option string) * list string :=
  match lines with
  | [] => (Raise EOFError, [])
  | user_input :: rest =>
      if PyStr.contains "esc" (PyStr.lower user_input) then (Ret None, rest)
      else if PyStr.truthy user_input then (Ret (Some user_input), rest)
      else read_secure_input rest
  end.

(** [str(otp)], which pyotp applies to the code it is given: a user who
    typed [esc] hands it [None]. *)
Definition str_of_input (code : option string) : string :=
  match code with
  | Some c => c
  | None => "None"
  end.

Definition get_secure_input (prompt : string) (is_password : bool) : M (option string) :=
  fun w =>
    let (r, rest) := read_secure_input (w_stdin w) in
    (r, with_stdin rest w).

(** [generate_secure_password(length)]: [length] draws from the alphabet. *)
Definition alphabet : string :=
  PyStr.ascii_letters +:+ PyStr.digits +:+ PyStr.punctuation.

Fixpoint join_choices (alphabet : string) (length : nat) : M string :=
  match length with
  | O => ret EmptyString
  | S n =>
      c <- secrets_choice alphabet ;;
      rest <- join_choices alphabet n ;;
      ret (String c rest)
  end.

Definition generate_secure_password (length : nat) : M string :=
  join_choices alphabet length.

(** Modelled from the spec: the operations of [script3_sql.DatabaseConnector],
    which is not part of the sources, after section 6 of the specification.
    An absent lockout record reads as the initial state [{0, 0}], an absent
    TOTP secret as the empty string; storing overwrites. *)
Module DatabaseConnector.

Definition query {A : Type} (c : DbCall) (user : string) (f : Db -> A) : M A :=
  emit (EvDb c user) ;;; (fun w => (Ret (f (w_db w)), w)).

Definition update (c : DbCall) (user : string) (f : Db -> Db) : M unit :=
  emit (EvDb c user) ;;; (fun w => (Ret tt, with_db f w)).

Definition initial_lockout : LockoutData :=
  {| failed_attempts := 0; lockout_until := 0 |}.

Definition get_lockout_data (user : string) : M LockoutData :=
  query GetLockoutData user (fun d => default initial_lockout (db_lockout d !! user)).

Definition set_lockout_data (user : string) (failed until : Z) : M unit :=
  update SetLockoutData user
    (set_db_lockout (insert user {| failed_attempts := failed; lockout_until := until |})).

Definition reset_lockout_data (user : string) : M unit :=
  update ResetLockoutData user (set_db_lockout (insert user initial_lockout)).

Definition get_user_password (user : string) : M (option string) :=
  query GetUserPassword user (fun d => db_password d !! user).

Definition update_master_password (user hash_value : string) : M unit :=
  update UpdateMasterPassword user (set_db_password (insert user hash_value)).

Definition create_user_with_pin (user hash_value pin_hash : string) : M unit :=
  update CreateUserWithPin user
    (fun d => set_db_pin (insert user pin_hash) (set_db_password (insert user hash_value) d)).

Definition get_recovery_pin (user : string) : M (option string) :=
  query GetRecoveryPin user (fun d => db_pin d !! user).

Definition get_user_salt (user : string) : M (option (list byte)) :=
  query GetUserSalt user (fun d => db_salt d !! user).

Definition store_user_salt (user : string) (salt : list byte) : M unit :=
  update StoreUserSalt user (set_db_salt (insert user salt)).

Definition get_totp_secret (user : string) : M string :=
  query GetTotpSecret user (fun d => default "" (db_totp d !! user)).

Definition set_totp_secret (user secret : string) : M unit :=
  update SetTotpSecret user (set_db_totp (insert user secret)).

Definition delete_totp_secret (user : string) : M unit :=
  update DeleteTotpSecret user (set_db_totp (delete user)).

Definition store_site (user site enc_username enc_password : string) : M unit :=
  update StoreSite user (set_db_sites (insert (user, site) (enc_username, enc_password))).

Definition get_site_credentials (user site : string) : M (option (string * string)) :=
  query GetSiteCredentials user (fun d => db_sites d !! (user, site)).

Definition store_wallet (user wallet_name enc_username enc_password enc_recovery : string)
  : M unit :=
  update StoreWallet user
    (set_db_wallets (insert (user, wallet_name) (enc_username, enc_password, enc_recovery))).

Definition get_wallet (user wallet_name : string) : M (option (string * string * string)) :=
  query GetWallet user (fun d => db_wallets d !! (user, wallet_name)).

End DatabaseConnector.

(** Truth value of an optional string or byte string: [None] and the empty
    value are false. *)
Definition truthy_opt (o : option string) : bool :=
  match o with
  | Some s => PyStr.truthy s
  | None => false
  end.

Definition truthy_bytes (o : option (list byte)) : bool :=
  match o with
  | Some (_ :: _) => true
  | _ => false
  end.

(** ** [DynamicPasswordManager]

    [self] is the manager's [username]; its [fer] attribute lives in the
    world. *)
Section Manager.

Context {prim : Primitives}.

Definition no_fer : Exn :=
  AttributeError "'DynamicPasswordManager' object has no attribute 'fer'".

(** [self.ph.verify(stored, secret)] *)
Definition ph_verify_call (stored secret : string) : M bool :=
  emit (EvHashVerify stored secret) ;;;
  match ph_verify stored secret with
  | VerifyOk => ret true
  | VerifyMismatch => raise VerifyMismatchError
  | VerifyFailure msg => raise (VerificationError msg)
  end.

(** [self.ph.hash(secret)] *)
Definition ph_hash_call (secret : string) : M string :=
  emit (EvHash secret) ;;;
  salt <- os_urandom 16 ;;
  ret (ph_hash secret salt).

(** [self.fer.encrypt(s.encode()).decode()] *)
Definition fer_encrypt (plaintext : string) : M string :=
  fun w =>
    match w_fer w with
    | None => (Raise no_fer, w)
    | Some key =>
        (current_time <- time_time ;;
         iv <- os_urandom 16 ;;
         ret (fernet_encrypt key plaintext iv current_time)) w
    end.

(** [self.fer.decrypt(tok.encode()).decode()] *)
Definition fer_decrypt (token : string) : M string :=
  fun w =>
    match w_fer w with
    | None => (Raise no_fer, w)
    | Some key =>
        match fernet_decrypt key token with
        | Some plaintext => (Ret plaintext, w)
        | None => (Raise InvalidToken, w)
        end
    end.

(** [self.fer = Fernet(key)] *)
Definition set_fer (key : list byte) : M unit :=
  fun w => (Ret tt, with_fer (Some key) w).

Definition create_key (self master_password : string) : M string :=
  ph_hash_call master_password.

Definition create_account (self master_password recovery_pin : string) : M unit :=
  user_salt <- os_urandom 16 ;;
  hash_value <- create_key self master_password ;;
  pin_hash <- ph_hash_call recovery_pin ;;
  DatabaseConnector.create_user_with_pin self hash_value pin_hash ;;;
  DatabaseConnector.store_user_salt self user_salt.

Definition verify_recovery_pin (self recovery_pin : string) : M bool :=
  stored_pin <- DatabaseConnector.get_recovery_pin self ;;
  match stored_pin with
  | Some stored =>
      if PyStr.truthy stored then
        try_except (ph_verify_call stored recovery_pin)
          (fun e =>
             match e with
             | VerifyMismatchError => ret false
             | _ => raise e
             end)
      else ret false
  | None => ret false
  end.

Definition reset_master_password (self new_password : string) : M unit :=
  hash_value <- create_key self new_password ;;
  DatabaseConnector.update_master_password self hash_value ;;;
  stored_salt <- DatabaseConnector.get_user_salt self ;;
  user_salt <-
    (match stored_salt with
     | Some (b :: bs) => ret (b :: bs)
     | _ =>
         fresh <- os_urandom 16 ;;
         DatabaseConnector.store_user_salt self fresh ;;;
         ret fresh
     end) ;;
  set_fer (pbkdf2_key user_salt new_password).

Definition verify_2fa (self : string) : M bool :=
  totp_secret <- DatabaseConnector.get_totp_secret self ;;
  if String.eqb totp_secret "" then ret true
  else
    code <- get_secure_input "Enter the 2FA code from your authenticator app:" false ;;
    emit (EvTotpVerify totp_secret (str_of_input code)) ;;;
    at_time <- time_time ;;
    if totp_verify totp_secret (str_of_input code) at_time then ret true
    else (print "Invalid 2FA code." ;;; ret false).

Definition inc_login_failure (self : string) : M unit :=
  lockout_data <- DatabaseConnector.get_lockout_data self ;;
  let failed := failed_attempts lockout_data + 1 in
  current_time <- time_time ;;
  if (5 <=? failed)%Z then
    let lockout_duration_minutes := 3 * 2 ^ (failed - 5) in
    let until := current_time + lockout_duration_minutes * 60 in
    print ("User locked out for " +:+ PyStr.str_of_Z lockout_duration_minutes
           +:+ " minutes.") ;;;
    DatabaseConnector.set_lockout_data self failed until
  else
    DatabaseConnector.set_lockout_data self failed 0.

Definition verify_master_password (self master_password : string) : M bool :=
  try_except
    (lockout_data <- DatabaseConnector.get_lockout_data self ;;
     let until := lockout_until lockout_data in
     current_time <- time_time ;;
     if (current_time <? until)%Z then
       let remaining := until - current_time in
       print (PyStr.nl +:+ "User is locked out. Try again in "
              +:+ PyStr.str_of_Z remaining +:+ " seconds.") ;;;
       ret false
     else
       stored_pass <- DatabaseConnector.get_user_password self ;;
       match stored_pass with
       | Some stored =>
           if PyStr.truthy stored then
             ph_verify_call stored master_password ;;;
             totp_secret <- DatabaseConnector.get_totp_secret self ;;
             second_factor <-
               (if String.eqb totp_secret "" then ret true else verify_2fa self) ;;
             if second_factor then
               DatabaseConnector.reset_lockout_data self ;;;
               ret true
             else ret false
           else
             print ("Invalid username or password for user: " +:+ self) ;;;
             ret false
       | None =>
           print ("Invalid username or password for user: " +:+ self) ;;;
           ret false
       end)
    (fun e =>
       match e with
       | VerifyMismatchError =>
           inc_login_failure self ;;;
           print (PyStr.nl +:+ "Error") ;;;
           ret false
       | _ =>
           print (PyStr.nl +:+ "Login failed: " +:+ exn_str e) ;;;
           ret false
       end).

Definition load_key (self master_password : string) : M unit :=
  try_except
    (ok <- verify_master_password self master_password ;;
     if ok then
       user_salt <- DatabaseConnector.get_user_salt self ;;
       match user_salt with
       | Some (b :: bs) => set_fer (pbkdf2_key (b :: bs) master_password)
       | _ => raise (ValueError "User salt not found")
       end
     else raise (ValueError "Invalid master password"))
    (fun e =>
       match e with
       | ValueError msg => print (PyStr.nl +:+ msg) ;;; raise e
       | _ => print (PyStr.nl +:+ "Error generating key") ;;; raise e
       end).

(** The sentinel: ['' if field == '0' else field]. *)
Definition blank_if_zero (field : string) : string :=
  if String.eqb field "0" then "" else field.

(** The [gen] keyword: [password.strip().lower() == "gen"]. *)
Definition is_gen (password : string) : bool :=
  String.eqb (PyStr.lower (PyStr.strip password)) "gen".

Definition add_credentials (self site username password : string) : M bool :=
  try_except
    (let username := blank_if_zero username in
     password <-
       (if is_gen password then
          generated <- generate_secure_password 25 ;;
          print ("succesfully generated secure password: " +:+ generated) ;;;
          ret generated
        else ret password) ;;
     let password := blank_if_zero password in
     encrypted_username <- fer_encrypt username ;;
     encrypted_password <- fer_encrypt password ;;
     DatabaseConnector.store_site self site encrypted_username encrypted_password ;;;
     ret true)
    (fun e =>
       print (PyStr.nl +:+ "Error adding credentials: " +:+ exn_str e) ;;;
       ret false).

Definition get_credentials (self site master_password : string)
  : M (option (gmap string string)) :=
  ok <- verify_master_password self master_password ;;
  if ok then
    result <- DatabaseConnector.get_site_credentials self site ;;
    match result with
    | Some (enc_username, enc_password) =>
        decrypted_username <- fer_decrypt enc_username ;;
        decrypted_password <- fer_decrypt enc_password ;;
        ret (Some (<["username" := PyStr.or_else decrypted_username "No username"]>
                   (<["password" := PyStr.or_else decrypted_password "No password"]> ∅)))
    | None => ret None
    end
  else raise (ValueError "Invalid master password").

Definition add_wallet
    (self wallet_name username password recovery_phrase master_password pin : string)
  : M unit :=
  ok <- verify_recovery_pin self pin ;;
  if ok then
    let username := blank_if_zero username in
    password <-
      (if is_gen password then
         generated <- generate_secure_password 25 ;;
         print (" wallet password generated: " +:+ generated) ;;;
         ret generated
       else ret password) ;;
    let password := blank_if_zero password in
    let recovery_phrase := blank_if_zero recovery_phrase in
    encrypted_username <- fer_encrypt username ;;
    encrypted_password <- fer_encrypt password ;;
    encrypted_recovery <- fer_encrypt recovery_phrase ;;
    DatabaseConnector.store_wallet self wallet_name encrypted_username
      encrypted_password encrypted_recovery
  else raise (ValueError "Invalid PIN").

(** [self.fer.decrypt(tok.encode()).decode() if tok else ""] *)
Definition decrypt_if_present (token : string) : M string :=
  if PyStr.truthy token then fer_decrypt token else ret "".

Definition get_wallet (self wallet_name master_password pin : string)
  : M (option (gmap string string)) :=
  ok <- verify_recovery_pin self pin ;;
  if ok then
    result <- DatabaseConnector.get_wallet self wallet_name ;;
    match result with
    | Some (enc_username, enc_password, enc_recovery) =>
        try_except
          (decrypted_username <- decrypt_if_present enc_username ;;
           decrypted_password <- decrypt_if_present enc_password ;;
           decrypted_recovery <- decrypt_if_present enc_recovery ;;
           ret (Some
                  (<["username" := PyStr.or_else decrypted_username "No username"]>
                   (<["password" := PyStr.or_else decrypted_password "No password"]>
                    (<["recovery_phrase" :=
                         PyStr.or_else decrypted_recovery "No recovery phrase"]> ∅)))))
          (fun e => print ("Error: " +:+ exn_str e) ;;; ret None)
    | None => ret None
    end
  else raise (ValueError "Invalid PIN").

End Manager.

(** ** A reference implementation of the primitives

    A transparent stand-in for the cryptographic libraries: it shows that the
    interface, and the laws some theorems assume of it, can be met, and it
    lets the operations be evaluated on concrete worlds. *)
Module Reference.

Definition hash_tag : string := "$ref$".

Definition ref_hash (secret : string) (salt : list byte) : string :=
  hash_tag +:+ secret.

Definition ref_verify (stored secret : string) : VerifyOutcome :=
  if String.eqb stored (hash_tag +:+ secret) then VerifyOk
  else if String.prefix hash_tag stored then VerifyMismatch
  else VerifyFailure "Invalid hash".

Definition ref_kdf (salt : list byte) (password : string) : list byte :=
  salt ++ list_byte_of_string password.

(** A token names its key, byte by byte, then carries the plaintext. *)
Fixpoint ref_seal (key : list byte) (plaintext : string) : string :=
  match key with
  | [] => String "."%char plaintext
  | b :: key' => String "k"%char (String (ascii_of_byte b) (ref_seal key' plaintext))
  end.

Fixpoint ref_open (key : list byte) (token : string) : option string :=
  match key, token with
  | [], String c rest => if Ascii.eqb c "."%char then Some rest else None
  | b :: key', String c (String d rest) =>
      if Ascii.eqb c "k"%char && Ascii.eqb d (ascii_of_byte b)
      then ref_open key' rest else None
  | _, _ => None
  end.

Definition ref_encrypt (key : list byte) (plaintext : string) (iv : list byte) (now : Z)
  : string := ref_seal key plaintext.

Definition ref_totp (secret code : string) (now : Z) : bool := String.eqb code secret.

#[export] Instance primitives : Primitives := {|
  ph_hash := ref_hash;
  ph_verify := ref_verify;
  pbkdf2_key := ref_kdf;
  fernet_encrypt := ref_encrypt;
  fernet_decrypt := ref_open;
  totp_verify := ref_totp
|}.

Definition empty_db : Db :=
  {| db_password := ∅; db_pin := ∅; db_salt := ∅; db_lockout := ∅; db_totp := ∅;
     db_sites := ∅; db_wallets := ∅ |}.

(** A world with an empty store, no cached cipher, a clock that starts at
    1000 and advances one second per reading, and a fixed entropy stream. *)
Definition genesis (stdin : list string) : World :=
  {| w_db := empty_db; w_fer := None;
     w_clock := fun n => 1000 + Z.of_nat n; w_ticks := 0;
     w_entropy := fun n => (7 * n + 3)%nat; w_drawn := 0;
     w_stdin := stdin; w_trace := [] |}.

(** The world after [alice] registered with a password and a PIN. *)
Definition registered : World :=
  snd (create_account "alice" "Tr0ub4dor&3" "123456" (genesis [])).

(** ... and after she logged in. *)
Definition logged_in : World :=
  snd (load_key "alice" "Tr0ub4dor&3" registered).

End Reference.

(** ** Laws of the primitives that some theorems assume *)

(** Fernet tokens are authenticated: a token does not decrypt under a key
    other than the one that produced it. *)
Definition fernet_authentic `{Primitives} : Prop :=
  forall (k k' : list byte) (p : string) (iv : list byte) (t : Z),
    k <> k' -> fernet_decrypt k' (fernet_encrypt k p iv t) = None.

(** Decryption under the producing key returns the plaintext. *)
Definition fernet_round_trip `{Primitives} : Prop :=
  forall (k : list byte) (p : string) (iv : list byte) (t : Z),
    fernet_decrypt k (fernet_encrypt k p iv t) = Some p.

(** [tok] is an encryption of [p] under [k]. *)
Definition encrypts `{Primitives} (k : list byte) (p tok : string) : Prop :=
  exists (iv : list byte) (t : Z),
    List.length iv = 16%nat /\ tok = fernet_encrypt k p iv t.

(** The plaintext [get_wallet] reads from a stored token. *)
Definition wallet_field `{Primitives} (fer : option (list byte)) (token : string) : Outcome string :=
  if PyStr.truthy token then
    match fer with
    | Some key =>
        match fernet_decrypt key token with
        | Some plaintext => Ret plaintext
        | None => Raise InvalidToken
        end
    | None => Raise no_fer
    end
  else Ret "".

(** The lockout record a user's row reads as. *)
Definition lockout_of (w : World) (user : string) : LockoutData :=
  default DatabaseConnector.initial_lockout (db_lockout (w_db w) !! user).

(** The characters that [n] successive draws select, read off an entropy
    stream from position [start]. *)
Fixpoint chosen (alphabet : string) (entropy : nat -> nat) (start n : nat) : string :=
  match n with
  | O => EmptyString
  | S n' => String (pick alphabet (entropy start)) (chosen alphabet entropy (S start) n')
  end.

(** The position of the first occurrence of a character. *)
Fixpoint position (c : ascii) (s : string) : nat :=
  match s with
  | EmptyString => O
  | String d s' => if Ascii.eqb c d then O else S (position c s')
  end.

(** Kinds of events. *)
Definition is_hash_verify (e : Event) : bool :=
  match e with
  | EvHashVerify _ _ => true
  | _ => false
  end.

Definition touches_lockout (e : Event) : bool :=
  match e with
  | EvDb GetLockoutData _ | EvDb SetLockoutData _ | EvDb ResetLockoutData _ => true
  | _ => false
  end.

(** ** Concrete worlds on the reference primitives *)
Module Scenario.
Import Reference.

Definition set_lockout (failed until : Z) (w : World) : World :=
  with_db (set_db_lockout
             (insert "alice" {| failed_attempts := failed; lockout_until := until |})) w.

(** Five failures on record and a lockout that ends at time 5000. *)
Definition locked_out : World := set_lockout 5 5000 registered.

(** Four failures on record, no lockout yet. *)
Definition four_failures : World := set_lockout 4 0 registered.

(** A second factor is enrolled, two failures are on record, and [stdin]
    is what the user will type.  The reference one-time code is the secret
    itself. *)
Definition enrolled (stdin : list string) : World :=
  with_stdin stdin
    (with_db (set_db_totp (insert "alice" "JBSWY3DPEHPK3PXP"))
       (set_lockout 2 0 registered)).

(** A legacy account: the row exists but no salt was ever stored. *)
Definition no_salt : World := with_db (set_db_salt (delete "alice")) registered.

(** A site credential stored during the session. *)
Definition stored : World :=
  snd (add_credentials "alice" "example.com" "alice" "s3cret" logged_in).

(** The same session on another entropy stream. *)
Definition reseeded : World :=
  {| w_db := w_db logged_in; w_fer := w_fer logged_in;
     w_clock := w_clock logged_in; w_ticks := w_ticks logged_in;
     w_entropy := fun n => (11 * n + 5)%nat; w_drawn := w_drawn logged_in;
     w_stdin := w_stdin logged_in; w_trace := w_trace logged_in |}.

(** A credential and a wallet whose fields were all given as [0]. *)
Definition blank_site : World :=
  snd (add_credentials "alice" "example.com" "0" "0" logged_in).

Definition blank_wallet : World :=
  snd (add_wallet "alice" "cold" "0" "0" "0" "Tr0ub4dor&3" "123456" logged_in).

End Scenario.

(** ** The rest of the manager: enrolment, documents, deletion *)

(** [pyotp.random_base32()]: 32 draws from the base32 alphabet. *)
Definition base32_chars : string := "ABCDEFGHIJKLMNOPQRSTUVWXYZ234567".

Definition random_base32 : M string := join_choices base32_chars 32.

(** Modelled from the spec: the documents of [script3_sql.DatabaseConnector],
    which is not part of the sources.  A row is keyed by user and document
    name and holds the name and the encrypted contents; the code reads the
    contents as item 1 of the row.  The table is passed to the operations
    that use it and handed back by those that change it. *)
Abbreviation Docs := (gmap (string * string) (string * string)).

(** A document name as the store lists it: text, or bytes still to decode. *)
Inductive DocEntry : Type :=
| DocStr (s : string)
| DocBytes (b : list byte).

(** Modelled from the spec: [delete_user_data] removes every record of the
    user (section 6, [deleteAllUserData]). *)
Definition purge_user (user : string) (d : Db) : Db :=
  {| db_password := delete user (db_password d);
     db_pin := delete user (db_pin d);
     db_salt := delete user (db_salt d);
     db_lockout := delete user (db_lockout d);
     db_totp := delete user (db_totp d);
     db_sites :=
       filter (fun row : string * string * (string * string) => fst (fst row) <> user)
              (db_sites d);
     db_wallets :=
       filter (fun row : string * string * (string * string * string) =>
                 fst (fst row) <> user)
              (db_wallets d) |}.

Definition delete_user_data (user : string) (docs : Docs) : M Docs :=
  fun w =>
    (Ret (filter (fun row : string * string * (string * string) => fst (fst row) <> user)
                 docs),
     with_db (purge_user user) w).

Section ManagerRest.

Context {prim : Primitives}.

(** [pyotp.TOTP(secret).provisioning_uri(name, issuer_name)] *)
Variable provisioning_uri : string -> string -> string -> string.

(** [b.decode()]; [None] when it raises. *)
Variable bytes_decode : list byte -> option string.

Definition enable_2fa (self : string) : M unit :=
  totp_secret <- random_base32 ;;
  DatabaseConnector.set_totp_secret self totp_secret ;;;
  let uri := provisioning_uri totp_secret self "SecureASF" in
  print "Scan this QR code URL with your Microsoft Authenticator app:" ;;;
  print uri ;;;
  print ("Or manually enter this secret: " +:+ totp_secret).

Definition disable_2fa (self : string) : M unit :=
  DatabaseConnector.delete_totp_secret self ;;;
  print "2FA has been disabled.".

Definition delete_all_data (self pin : string) (docs : Docs) : M Docs :=
  ok <- verify_recovery_pin self pin ;;
  if ok then delete_user_data self docs
  else raise (ValueError "Invalid PIN").

Definition add_secure_doc (self doc_name doc_contents : string) (docs : Docs) : M Docs :=
  encrypted_contents <- fer_encrypt doc_contents ;;
  ret (<[(self, doc_name) := (doc_name, encrypted_contents)]> docs).

Definition get_secure_doc (self doc_name master_password : string) (docs : Docs)
  : M (option (gmap string string)) :=
  match docs !! (self, doc_name) with
  | Some result =>
      try_except
        (decrypted_contents <- fer_decrypt (snd result) ;;
         ret (Some (<["name" := doc_name]> (<["contents" := decrypted_contents]> ∅))))
        (fun e => print ("Decryption error: " +:+ exn_str e) ;;; ret None)
  | None => ret None
  end.

(** The loop of [get_all_docs] over the listed entries: decode the bytes,
    append, and skip an entry whose decoding raises. *)
Definition get_all_docs (encrypted_docs : list DocEntry) : list string :=
  fold_left
    (fun (docs : list string) doc =>
       match doc with
       | DocStr s => (docs ++ [s])%list
       | DocBytes b =>
           match bytes_decode b with
           | Some s => (docs ++ [s])%list
           | None => docs
           end
       end)
    encrypted_docs [].

End ManagerRest.

(** [n] login attempts in a row with the same password. *)
Definition login_attempts `{Primitives} (n : nat) (self master_password : string)
    (w : World) : World :=
  Nat.iter n (fun w => snd (verify_master_password self master_password w)) w.

(** argon2 accepts the secret a hash was made from, and a hash is not empty. *)
Definition argon2_sound `{Primitives} : Prop :=
  forall (secret : string) (salt : list byte),
    ph_hash secret salt <> "" /\ ph_verify (ph_hash secret salt) secret = VerifyOk.

(** A Fernet token is not the empty string. *)
Definition fernet_tokens_nonempty `{Primitives} : Prop :=
  forall (k : list byte) (p : string) (iv : list byte) (t : Z),
    fernet_encrypt k p iv t <> "".

(** More concrete worlds. *)
Module Cases.
Import Reference.

(** The stored hash of [alice] replaced by a string argon2 cannot parse. *)
Definition corrupted : World :=
  with_db (set_db_password (insert "alice" "garbage")) registered.

(** A second factor enrolled, and nothing left to read on standard input. *)
Definition enrolled_eof : World := Scenario.enrolled [].

(** The lines a user types at a prompt: two empty ones, then a name. *)
Definition typing : World := genesis [""; ""; "alice"; "next"].

(** A clock that starts at 1000 and five wrong passwords in a row. *)
Definition five_wrong : World := login_attempts 5 "alice" "wrong" registered.

(** A wallet stored during the session. *)
Definition with_wallet : World :=
  snd (add_wallet "alice" "cold" "satoshi" "hunter2" "abandon ability"
         "Tr0ub4dor&3" "123456" logged_in).

(** The session after [alice] changed her password. *)
Definition changed : World :=
  snd (reset_master_password "alice" "correct horse" Scenario.stored).

(** A site whose stored username token was damaged. *)
Definition damaged_wallet : World :=
  with_db (set_db_wallets (insert ("alice", "cold") ("junk", "", ""))) logged_in.

Definition uri (secret name issuer : string) : string :=
  "otpauth://totp/" +:+ issuer +:+ ":" +:+ name +:+ "?secret=" +:+ secret.

End Cases.

(** Worlds around a password reset. *)
Module Orphaned.
Import Reference.

(** The stored PIN hash of [alice] replaced by a string argon2 cannot parse. *)
Definition bad_pin : World :=
  with_db (set_db_pin (insert "alice" "garbage")) registered.

(** A site, a wallet and a document stored during the session. *)
Definition wallet_added : World :=
  snd (add_wallet "alice" "cold" "satoshi" "hunter2" "abandon ability"
         "Tr0ub4dor&3" "123456" Scenario.stored).

Definition docs : Docs :=
  match fst (add_secure_doc "alice" "notes" "seed words" ∅ wallet_added) with
  | Ret table => table
  | Raise _ => ∅
  end.

Definition filled : World :=
  snd (add_secure_doc "alice" "notes" "seed words" ∅ wallet_added).

(** ... and the session after [alice] changed her password. *)
Definition after_reset : World :=
  snd (reset_master_password "alice" "correct horse" filled).

End Orphaned.

(** ** Symbolic execution *)

(** Unfold the monad, the store and the manager's methods, call by value, so
    that every world is brought to a record of its fields before it is
    passed on. *)
Ltac py_cbv :=
  cbv beta iota zeta delta
    [verify_master_password verify_2fa inc_login_failure ph_verify_call ph_hash_call
     verify_recovery_pin reset_master_password load_key create_key
     fer_encrypt fer_decrypt decrypt_if_present get_secure_input
     DatabaseConnector.get_lockout_data DatabaseConnector.set_lockout_data
     DatabaseConnector.reset_lockout_data DatabaseConnector.get_user_password
     DatabaseConnector.update_master_password DatabaseConnector.get_recovery_pin
     DatabaseConnector.get_user_salt DatabaseConnector.store_user_salt
     DatabaseConnector.get_totp_secret DatabaseConnector.store_site
     DatabaseConnector.get_site_credentials DatabaseConnector.store_wallet
     DatabaseConnector.get_wallet DatabaseConnector.query DatabaseConnector.update
     print set_fer try_except bind ret raise emit time_time os_urandom
     with_trace with_ticks with_stdin with_db with_drawn with_fer
     w_db w_fer w_clock w_ticks w_entropy w_drawn w_stdin w_trace
     set_db_password set_db_pin set_db_salt set_db_lockout set_db_totp
     set_db_sites set_db_wallets
     db_password db_pin db_salt db_lockout db_totp db_sites db_wallets
     lockout_of fst snd] in *.

Ltac string_facts :=
  repeat match goal with
    | Hx : String.eqb _ _ = true |- _ => apply String.eqb_eq in Hx
    | Hx : String.eqb _ _ = false |- _ => apply String.eqb_neq in Hx
    | Hx : Z.ltb _ _ = true |- _ => apply Z.ltb_lt in Hx
    | Hx : Z.ltb _ _ = false |- _ => apply Z.ltb_ge in Hx
    | Hx : Z.leb _ _ = true |- _ => apply Z.leb_le in Hx
    | Hx : Z.leb _ _ = false |- _ => apply Z.leb_gt in Hx
    end.

(** The term a stuck conditional waits for: follow scrutinees and heads of
    applications down to one that is not a conditional. *)
Ltac head_of t :=
  lazymatch t with
  | ?f _ => head_of f
  | _ => t
  end.

Ltac stuck_on t :=
  let h := head_of t in
  lazymatch h with
  | match ?x with _ => _ end => stuck_on x
  | _ => t
  end.

Ltac case_inner :=
  match goal with
  | |- context [match ?x with _ => _ end] =>
      let y := stuck_on x in
      lazymatch type of y with
      | World => fail
      | Db => fail
      | _ => destruct y eqn:?
      end
  end.

(** One goal per path through the conditionals that are left. *)
Ltac py_paths := repeat (case_inner; simplify_eq; py_cbv).

(** Name the fields of a world. *)
Ltac open_world w :=
  let db := fresh "db" in
  destruct w as [db ? ? ? ? ? ? ?]; destruct db as [? ? ? ? ? ? ?].

Section LockoutPolicy.

Context {prim : Primitives}.

(** C1.  While the stored lockout has not elapsed ([now < lockout_until]),
    [verify_master_password] answers [False] whatever the password and
    whatever the hasher would say of it: the only store access is the read
    of the lockout record, no hash comparison is made, nothing is written,
    and the one line printed reports [lockout_until - now] seconds. *)
Theorem verify_master_password_locked_out (self master_password : string) (w : World) :
  let deadline := lockout_until (lockout_of w self) in
  let now := w_clock w (w_ticks w) in
  let events :=
    [EvDb GetLockoutData self;
     EvPrint (PyStr.nl +:+ "User is locked out. Try again in "
              +:+ PyStr.str_of_Z (deadline - now) +:+ " seconds.")] in
  now < deadline ->
  verify_master_password self master_password w =
    (Ret false, with_trace (w_trace w ++ events) (with_ticks (S (w_ticks w)) w))
  /\ existsb is_hash_verify events = false.
Proof.
  intros deadline now events Hlt. split; [| reflexivity].
  subst deadline now events. apply Z.ltb_lt in Hlt.
  open_world w. py_cbv. rewrite Hlt. rewrite <- app_assoc. reflexivity.
Qed.

(** C2.  [inc_login_failure] persists the failure count plus one.  When the
    new count is at least 5 the persisted [lockout_until] is the time read
    plus [3 * 2 ^ (count - 5)] minutes: 3 minutes at 5, 6 at 6, 12 at 7,
    twice as long for each further failure.  Below 5 it is 0. *)
Theorem inc_login_failure_escalation (self : string) (w : World) :
  let count := failed_attempts (lockout_of w self) + 1 in
  let now := w_clock w (w_ticks w) in
  let w' := snd (inc_login_failure self w) in
  fst (inc_login_failure self w) = Ret tt
  /\ db_lockout (w_db w') !! self =
       Some {| failed_attempts := count;
               lockout_until :=
                 if (5 <=? count)%Z then now + (3 * 2 ^ (count - 5)) * 60 else 0 |}
  /\ (5 <= count -> lockout_until (lockout_of w' self) = now + (3 * 2 ^ (count - 5)) * 60)
  /\ (count = 5 -> lockout_until (lockout_of w' self) = now + 3 * 60)
  /\ (count = 6 -> lockout_until (lockout_of w' self) = now + 6 * 60)
  /\ (count = 7 -> lockout_until (lockout_of w' self) = now + 12 * 60)
  /\ (5 <= count -> 3 * 2 ^ (count + 1 - 5) = 2 * (3 * 2 ^ (count - 5)))
  /\ (count < 5 -> lockout_until (lockout_of w' self) = 0).
Proof.
  intros count now w'.
  assert (Hrun : fst (inc_login_failure self w) = Ret tt
                 /\ db_lockout (w_db w') !! self =
                      Some {| failed_attempts := count;
                              lockout_until :=
                                if (5 <=? count)%Z
                                then now + (3 * 2 ^ (count - 5)) * 60 else 0 |}).
  { subst w' count now. open_world w. py_cbv.
    destruct (5 <=? _)%Z; py_cbv; rewrite lookup_insert_eq; auto. }
  destruct Hrun as [Hret Hrow].
  assert (Huntil : lockout_until (lockout_of w' self) =
                   if (5 <=? count)%Z then now + (3 * 2 ^ (count - 5)) * 60 else 0).
  { unfold lockout_of. rewrite Hrow. reflexivity. }
  repeat split; auto.
  - intros Hge. rewrite Huntil. apply Z.leb_le in Hge. rewrite Hge. reflexivity.
  - intros Heq. rewrite Huntil, Heq. reflexivity.
  - intros Heq. rewrite Huntil, Heq. reflexivity.
  - intros Heq. rewrite Huntil, Heq. reflexivity.
  - intros Hge. replace (count + 1 - 5) with (Z.succ (count - 5)) by lia.
    rewrite Z.pow_succ_r by lia. lia.
  - intros Hlt. rewrite Huntil.
    destruct (5 <=? count)%Z eqn:E; [apply Z.leb_le in E; lia | reflexivity].
Qed.

End LockoutPolicy.

(** [get_secure_input] returns what was typed or meets the end of the input. *)
Lemma read_secure_input_cases (lines : list string) :
  (exists code rest, read_secure_input lines = (Ret code, rest))
  \/ (exists rest, read_secure_input lines = (Raise EOFError, rest)).
Proof.
  induction lines as [| l lines IH]; simpl.
  - right. eauto.
  - destruct (PyStr.contains "esc" (PyStr.lower l)); [left; eauto |].
    destruct (PyStr.truthy l); [left; eauto | exact IH].
Qed.

(** Name the outcome and the final world of a run that the goal mentions, so
    that the run is unfolded once. *)
Ltac name_run t :=
  let r := fresh "r" in
  let w' := fresh "w'" in
  let Hrun := fresh "Hrun" in
  destruct t as [r w'] eqn:Hrun; cbn [fst snd]; revert Hrun.

(** After the paths are split, each goal starts with the equation that gives
    the named outcome and world. *)
Ltac close_run :=
  let E := fresh "E" in
  intros E; simplify_eq; py_cbv.

(** Run [verify_master_password] on the world [w], one goal per path. *)
Ltac run_login w :=
  let code := fresh "code" in
  let rest := fresh "rest" in
  let Hin := fresh "Hin" in
  destruct (read_secure_input_cases (w_stdin w)) as [(code & rest & Hin) | (rest & Hin)];
  match goal with
  | |- context [verify_master_password ?s ?p w] =>
      name_run (verify_master_password s p w)
  end;
  open_world w; py_cbv; rewrite ?Hin; py_cbv; py_paths; close_run; string_facts.

Section Authentication.

Context {prim : Primitives}.

(** [verify_master_password] always answers with a boolean, and of the
    store it can only change the lockout records. *)
Lemma verify_master_password_frame (self master_password : string) (w : World) :
  let w' := snd (verify_master_password self master_password w) in
  (exists b, fst (verify_master_password self master_password w) = Ret b)
  /\ db_password (w_db w') = db_password (w_db w)
  /\ db_pin (w_db w') = db_pin (w_db w)
  /\ db_salt (w_db w') = db_salt (w_db w)
  /\ db_totp (w_db w') = db_totp (w_db w)
  /\ db_sites (w_db w') = db_sites (w_db w)
  /\ db_wallets (w_db w') = db_wallets (w_db w)
  /\ w_fer w' = w_fer w
  /\ w_entropy w' = w_entropy w
  /\ w_drawn w' = w_drawn w.
Proof.
  intros w'. subst w'. run_login w; eauto 12.
Qed.

(** C3.  When [verify_master_password] returns [True] the lockout record is
    [{0, 0}], the stored hash verified, and, if a TOTP secret is enrolled,
    the code that was typed verified too.  The store's reset is called on
    exactly the runs that return [True].  When the password verifies but
    the enrolled second factor does not, the answer is [False] and the store
    is left as it was: the lockout record is not reset. *)
Theorem lockout_reset_only_on_full_success (self master_password : string) (w : World) :
  let r := fst (verify_master_password self master_password w) in
  let w' := snd (verify_master_password self master_password w) in
  let secret := default "" (db_totp (w_db w) !! self) in
  (r = Ret true ->
     db_lockout (w_db w') !! self = Some DatabaseConnector.initial_lockout
     /\ (exists stored, db_password (w_db w) !! self = Some stored
                        /\ ph_verify stored master_password = VerifyOk)
     /\ (secret <> "" ->
         exists code rest,
           read_secure_input (w_stdin w) = (Ret code, rest)
           /\ totp_verify secret (str_of_input code) (w_clock w (S (w_ticks w))) = true))
  /\ (exists events : list Event,
        w_trace w' = (w_trace w ++ events)%list
        /\ (In (EvDb ResetLockoutData self) events <-> r = Ret true))
  /\ ((exists stored, db_password (w_db w) !! self = Some stored
                      /\ ph_verify stored master_password = VerifyOk) ->
      secret <> "" ->
      (forall code rest,
          read_secure_input (w_stdin w) = (Ret code, rest) ->
          totp_verify secret (str_of_input code) (w_clock w (S (w_ticks w))) = false) ->
      r = Ret false /\ w_db w' = w_db w).
Proof.
  intros r w' secret. subst r w' secret. split; [| split].
  - run_login w; intros; simplify_eq.
    all: rewrite ?lookup_insert_eq; (split; [reflexivity |]); (split; [eauto |]).
    all: intros Hs; try congruence; eauto.
  - run_login w.
    all: rewrite <- ?app_assoc; simpl; eexists; (split; [reflexivity |]).
    all: simpl; split; intros; simplify_eq; auto; try intuition congruence.
  - intros (stored & Hst & Hok) Hs Hbad.
    run_login w; auto.
    all: try congruence.
    all: try (erewrite Hbad in *; eauto; congruence).
Qed.

(** C4, as the code has it.  With the lockout elapsed and a stored hash,
    an attempt whose password verifies but whose code for the enrolled
    second factor is refused returns [False] and leaves the store as it
    was, so [failed_attempts] and [lockout_until] keep their values; an
    attempt whose password does not verify returns [False] too and
    persists [failed_attempts + 1]. *)
Theorem second_factor_failure_leaves_counter
    (self master_password stored : string) (w : World) :
  let r := fst (verify_master_password self master_password w) in
  let w' := snd (verify_master_password self master_password w) in
  let secret := default "" (db_totp (w_db w) !! self) in
  lockout_until (lockout_of w self) <= w_clock w (w_ticks w) ->
  db_password (w_db w) !! self = Some stored ->
  PyStr.truthy stored = true ->
  (ph_verify stored master_password = VerifyOk ->
   secret <> "" ->
   (forall code rest,
       read_secure_input (w_stdin w) = (Ret code, rest) ->
       totp_verify secret (str_of_input code) (w_clock w (S (w_ticks w))) = false) ->
   r = Ret false /\ w_db w' = w_db w /\ lockout_of w' self = lockout_of w self)
  /\ (ph_verify stored master_password = VerifyMismatch ->
      r = Ret false
      /\ failed_attempts (lockout_of w' self) = failed_attempts (lockout_of w self) + 1).
Proof.
  intros r w' secret Hopen Hst Htruthy. subst r w' secret. split.
  - intros Hok Hs Hbad.
    run_login w; auto; try congruence; try lia.
    all: try (erewrite Hbad in *; eauto; congruence).
  - intros Hbad.
    run_login w; auto; try congruence; try lia.
    all: rewrite ?lookup_insert_eq; simpl; auto.
Qed.

End Authentication.

Section RecoveryPin.

Context {prim : Primitives}.

(** What [verify_recovery_pin] answers, as a function of the stored PIN hash. *)
Lemma verify_recovery_pin_result (self recovery_pin : string) (w : World) :
  fst (verify_recovery_pin self recovery_pin w) =
    match db_pin (w_db w) !! self with
    | Some stored =>
        if PyStr.truthy stored then
          match ph_verify stored recovery_pin with
          | VerifyOk => Ret true
          | VerifyMismatch => Ret false
          | VerifyFailure msg => Raise (VerificationError msg)
          end
        else Ret false
    | None => Ret false
    end.
Proof.
  open_world w. py_cbv. py_paths; reflexivity.
Qed.

(** [verify_recovery_pin] changes nothing but the trace. *)
Lemma verify_recovery_pin_frame (self recovery_pin : string) (w : World) :
  exists events : list Event,
    snd (verify_recovery_pin self recovery_pin w) = with_trace (w_trace w ++ events) w
    /\ existsb touches_lockout events = false
    /\ (forall c u, In (EvDb c u) events -> c = GetRecoveryPin /\ u = self).
Proof.
  open_world w. py_cbv. py_paths.
  all: rewrite <- ?app_assoc; eexists; (split; [reflexivity |]); simpl.
  all: split; [reflexivity |]; intros c u Hin; intuition congruence.
Qed.

(** C7.  [verify_recovery_pin] leaves the store as it is, the lockout record
    with it; its only call to the store is the read of the stored PIN hash;
    its answer is the same in any world with the same stored PIN hash, so it
    does not depend on the lockout record.  It is [True] when the hasher
    accepts the PIN and [False] when it reports a mismatch or no hash is
    stored; any other error of the hasher is not caught: it is raised to the
    caller, and these are the only runs that do not answer a boolean. *)
Theorem verify_recovery_pin_ignores_lockout (self recovery_pin : string) (w : World) :
  let r := fst (verify_recovery_pin self recovery_pin w) in
  let w' := snd (verify_recovery_pin self recovery_pin w) in
  w_db w' = w_db w
  /\ lockout_of w' self = lockout_of w self
  /\ (exists events : list Event,
        w_trace w' = (w_trace w ++ events)%list
        /\ existsb touches_lockout events = false
        /\ (forall c u, In (EvDb c u) events -> c = GetRecoveryPin /\ u = self))
  /\ (forall w2 : World,
        db_pin (w_db w2) !! self = db_pin (w_db w) !! self ->
        fst (verify_recovery_pin self recovery_pin w2) = r)
  /\ (forall stored,
        db_pin (w_db w) !! self = Some stored -> PyStr.truthy stored = true ->
        (ph_verify stored recovery_pin = VerifyOk -> r = Ret true)
        /\ (ph_verify stored recovery_pin = VerifyMismatch -> r = Ret false)
        /\ (forall msg, ph_verify stored recovery_pin = VerifyFailure msg ->
                        r = Raise (VerificationError msg)))
  /\ (truthy_opt (db_pin (w_db w) !! self) = false -> r = Ret false)
  /\ ((exists b : bool, r = Ret b) <->
      (forall stored msg,
          db_pin (w_db w) !! self = Some stored -> PyStr.truthy stored = true ->
          ph_verify stored recovery_pin <> VerifyFailure msg)).
Proof.
  intros r w'.
  pose proof (verify_recovery_pin_result self recovery_pin w) as Hr. fold r in Hr.
  destruct (verify_recovery_pin_frame self recovery_pin w) as (events & Hw & Hno & Hdb).
  fold w' in Hw.
  split; [| split; [| split; [| split; [| split; [| split]]]]].
  - rewrite Hw. reflexivity.
  - unfold lockout_of. rewrite Hw. reflexivity.
  - exists events. rewrite Hw. auto.
  - intros w2 Hpin. rewrite verify_recovery_pin_result, Hpin. symmetry. exact Hr.
  - intros stored Hs Ht. rewrite Hr, Hs, Ht.
    split; [| split]; [intros -> | intros -> | intros msg ->]; reflexivity.
  - intros Hf. rewrite Hr. unfold truthy_opt in Hf.
    destruct (db_pin (w_db w) !! self); [rewrite Hf |]; reflexivity.
  - rewrite Hr. split.
    + intros [b Hb] stored msg Hs Ht Hv. rewrite Hs, Ht, Hv in Hb. discriminate Hb.
    + intros Hwf.
      destruct (db_pin (w_db w) !! self) as [stored |] eqn:Hs; [| eauto].
      destruct (PyStr.truthy stored) eqn:Ht; [| eauto].
      destruct (ph_verify stored recovery_pin) eqn:Hv; eauto.
      exfalso. eapply Hwf; eauto.
Qed.

End RecoveryPin.

Section KeyDerivation.

Context {prim : Primitives}.

Lemma drawn_bytes_length (entropy : nat -> nat) (start n : nat) :
  List.length (drawn_bytes entropy start n) = n.
Proof. unfold drawn_bytes. rewrite length_map, length_seq. reflexivity. Qed.

(** C5, as the code has it.  [reset_master_password] generates a 16-byte salt
    and stores it when none is stored, and derives the key from it; it keeps a
    stored salt.  [load_key] never writes a salt and draws no randomness: with
    a stored salt it derives the key from that salt, and with none it raises
    [ValueError("User salt not found")] and leaves the session without a new
    key. *)
Theorem salt_generated_by_reset_only (self password : string) (w : World) :
  let reset := reset_master_password self password w in
  let load := load_key self password w in
  let fresh := drawn_bytes (w_entropy w) (w_drawn w + 16) 16 in
  (truthy_bytes (db_salt (w_db w) !! self) = false ->
     fst reset = Ret tt
     /\ db_salt (w_db (snd reset)) !! self = Some fresh
     /\ List.length fresh = 16%nat
     /\ w_fer (snd reset) = Some (pbkdf2_key fresh password))
  /\ (forall salt,
        db_salt (w_db w) !! self = Some salt -> salt <> [] ->
        fst reset = Ret tt
        /\ db_salt (w_db (snd reset)) = db_salt (w_db w)
        /\ w_fer (snd reset) = Some (pbkdf2_key salt password)
        /\ (fst (verify_master_password self password w) = Ret true ->
            fst load = Ret tt /\ w_fer (snd load) = Some (pbkdf2_key salt password)))
  /\ db_salt (w_db (snd load)) = db_salt (w_db w)
  /\ w_drawn (snd load) = w_drawn w
  /\ (truthy_bytes (db_salt (w_db w) !! self) = false ->
      fst (verify_master_password self password w) = Ret true ->
      fst load = Raise (ValueError "User salt not found")
      /\ w_fer (snd load) = w_fer w).
Proof.
  intros reset load fresh.
  assert (Hload :
    db_salt (w_db (snd load)) = db_salt (w_db w)
    /\ w_drawn (snd load) = w_drawn w
    /\ (fst (verify_master_password self password w) = Ret true ->
        match db_salt (w_db w) !! self with
        | Some (b :: bs) =>
            fst load = Ret tt /\ w_fer (snd load) = Some (pbkdf2_key (b :: bs) password)
        | _ =>
            fst load = Raise (ValueError "User salt not found")
            /\ w_fer (snd load) = w_fer w
        end)).
  { subst load. clear reset fresh.
    name_run (load_key self password w). unfold load_key.
    pose proof (verify_master_password_frame self password w) as F.
    cbv zeta in F. unfold try_except, bind.
    destruct (verify_master_password self password w) as [r1 w1] eqn:Hv.
    cbn [fst snd] in F.
    destruct F as ((b & ->) & _ & _ & Hsalt & _ & _ & _ & Hfer & _ & Hdrawn).
    rewrite <- Hsalt, <- Hfer, <- Hdrawn. clear Hsalt Hfer Hdrawn Hv.
    open_world w1. py_cbv. py_paths; close_run; auto; repeat split; congruence. }
  destruct Hload as (Hls & Hld & Hlr).
  split; [| split; [| split; [| split]]]; auto.
  - intros Hnone. clear Hls Hld Hlr. subst reset fresh. clear load. open_world w. py_cbv.
    rewrite drawn_bytes_length.
    unfold truthy_bytes in Hnone.
    py_paths; try discriminate; rewrite ?lookup_insert_eq; auto.
  - intros salt Hsalt Hne.
    assert (Hreset : fst reset = Ret tt
                     /\ db_salt (w_db (snd reset)) = db_salt (w_db w)
                     /\ w_fer (snd reset) = Some (pbkdf2_key salt password)).
    { subst reset. clear Hls Hld Hlr load fresh. open_world w. py_cbv. rewrite Hsalt.
      destruct salt; [congruence |]. py_cbv. auto. }
    destruct Hreset as (Hr1 & Hr2 & Hr3). do 3 (split; [assumption |]).
    intros Hok. specialize (Hlr Hok). rewrite Hsalt in Hlr.
    destruct salt; [congruence | exact Hlr].
  - intros Hnone Hok. specialize (Hlr Hok). unfold truthy_bytes in Hnone.
    destruct (db_salt (w_db w) !! self) as [[| b bs] |]; try discriminate; exact Hlr.
Qed.

End KeyDerivation.

(** ** Password generation *)

Lemma with_drawn_twice (a b : nat) (w : World) :
  with_drawn a (with_drawn b w) = with_drawn a w.
Proof. reflexivity. Qed.

(** [length] draws read the entropy stream in order and move its cursor. *)
Lemma join_choices_run (a : string) (n : nat) (w : World) :
  join_choices a n w =
    (Ret (chosen a (w_entropy w) (w_drawn w) n), with_drawn (w_drawn w + n)%nat w).
Proof.
  revert w. induction n as [| n IH]; intros w.
  - simpl. unfold ret. destruct w. unfold with_drawn. simpl.
    rewrite Nat.add_0_r. reflexivity.
  - simpl. unfold bind, secrets_choice. rewrite IH. unfold ret. simpl.
    rewrite with_drawn_twice. do 2 f_equal. unfold with_drawn. f_equal. lia.
Qed.

Lemma chosen_length (a : string) (entropy : nat -> nat) (start n : nat) :
  String.length (chosen a entropy start n) = n.
Proof.
  revert start. induction n as [| n IH]; intros start; simpl; [| rewrite IH]; reflexivity.
Qed.

Lemma get_in_string (s : string) (i : nat) (c : ascii) :
  String.get i s = Some c -> In c (list_ascii_of_string s).
Proof.
  revert i. induction s as [| d s IH]; intros i Hget; simpl in *; [discriminate |].
  destruct i as [| i]; [left; congruence | right; eauto].
Qed.

Lemma get_in_range (s : string) (i : nat) :
  (i < String.length s)%nat -> exists c, String.get i s = Some c.
Proof.
  revert i. induction s as [| d s IH]; intros i Hlt; simpl in *; [lia |].
  destruct i as [| i]; [eauto | apply IH; lia].
Qed.

Lemma alphabet_length : String.length alphabet = 94%nat.
Proof. reflexivity. Qed.

(** Every draw lands in the alphabet. *)
Lemma pick_in_alphabet (r : nat) : In (pick alphabet r) (list_ascii_of_string alphabet).
Proof.
  unfold pick.
  destruct (get_in_range alphabet (r mod String.length alphabet)) as [c Hc].
  { rewrite alphabet_length. apply Nat.mod_upper_bound. discriminate. }
  rewrite Hc. eapply get_in_string; eauto.
Qed.

Lemma chosen_in_alphabet (entropy : nat -> nat) (start n : nat) :
  Forall (fun c => In c (list_ascii_of_string alphabet))
         (list_ascii_of_string (chosen alphabet entropy start n)).
Proof.
  revert start. induction n as [| n IH]; intros start; simpl; constructor.
  - apply pick_in_alphabet.
  - apply IH.
Qed.

(** The alphabet has no repeated character: a draw gives its index back. *)
Lemma position_pick (r : nat) : position (pick alphabet r) alphabet = (r mod 94)%nat.
Proof.
  assert (Hall : forallb (fun i => Nat.eqb (position (pick alphabet i) alphabet) i)
                         (seq 0 94) = true) by (vm_compute; reflexivity).
  rewrite forallb_forall in Hall.
  assert (Hlt : (r mod 94 < 94)%nat) by (apply Nat.mod_upper_bound; discriminate).
  specialize (Hall (r mod 94)%nat).
  rewrite in_seq in Hall. specialize (Hall ltac:(lia)).
  apply Nat.eqb_eq in Hall.
  unfold pick in *. rewrite alphabet_length in *.
  rewrite Nat.Div0.mod_mod in Hall. exact Hall.
Qed.

Lemma pick_injective (r1 r2 : nat) :
  (r1 mod 94)%nat <> (r2 mod 94)%nat -> pick alphabet r1 <> pick alphabet r2.
Proof.
  intros Hne Heq. apply Hne. rewrite <- !position_pick. rewrite Heq. reflexivity.
Qed.

(** Two runs whose draws differ somewhere give different passwords. *)
Lemma chosen_differ (e1 e2 : nat -> nat) (s1 s2 n : nat) :
  (exists i, (i < n)%nat /\ (e1 (s1 + i) mod 94)%nat <> (e2 (s2 + i) mod 94)%nat) ->
  chosen alphabet e1 s1 n <> chosen alphabet e2 s2 n.
Proof.
  revert s1 s2. induction n as [| n IH]; intros s1 s2 (i & Hlt & Hne); [lia |].
  simpl. intros Heq. injection Heq as Hhead Htail.
  destruct i as [| i].
  - rewrite !Nat.add_0_r in Hne. eapply pick_injective; eauto.
  - eapply (IH (S s1) (S s2)); [| exact Htail].
    exists i. split; [lia |].
    replace (S s1 + i)%nat with (s1 + S i)%nat by lia.
    replace (S s2 + i)%nat with (s2 + S i)%nat by lia. exact Hne.
Qed.

Lemma blank_if_zero_long (s : string) :
  String.length s <> 1%nat -> blank_if_zero s = s.
Proof.
  intros Hlen. unfold blank_if_zero.
  destruct (String.eqb s "0") eqn:E; [| reflexivity].
  apply String.eqb_eq in E. subst s. simpl in Hlen. congruence.
Qed.

Lemma truthy_false (s : string) : PyStr.truthy s = false -> s = "".
Proof.
  unfold PyStr.truthy. intros Hf. apply negb_false_iff in Hf.
  apply String.eqb_eq in Hf. exact Hf.
Qed.

Lemma truthy_true (s : string) : PyStr.truthy s = true <-> s <> "".
Proof.
  unfold PyStr.truthy. rewrite negb_true_iff. apply String.eqb_neq.
Qed.

Section Vault.

Context {prim : Primitives}.

(** The password that reaches the cipher: generated for the [gen] keyword,
    otherwise what was given, with the [0] sentinel blanked. *)
Lemma add_credentials_run (self site username password : string) (w : World)
    (k : list byte) :
  w_fer w = Some k ->
  exists tok_u tok_p w',
    add_credentials self site username password w = (Ret true, w')
    /\ db_sites (w_db w') = <[(self, site) := (tok_u, tok_p)]> (db_sites (w_db w))
    /\ encrypts k (blank_if_zero username) tok_u
    /\ encrypts k (if is_gen password
                   then chosen alphabet (w_entropy w) (w_drawn w) 25
                   else blank_if_zero password) tok_p
    /\ db_password (w_db w') = db_password (w_db w)
    /\ db_salt (w_db w') = db_salt (w_db w)
    /\ db_wallets (w_db w') = db_wallets (w_db w)
    /\ w_fer w' = Some k.
Proof.
  intros Hfer. unfold encrypts.
  name_run (add_credentials self site username password w).
  unfold add_credentials, generate_secure_password.
  destruct (is_gen password) eqn:Hgen.
  - unfold try_except, bind at 1 2. rewrite join_choices_run.
    open_world w. py_cbv. subst. py_cbv. close_run.
    rewrite (blank_if_zero_long (chosen _ _ _ _)) by (rewrite chosen_length; discriminate).
    do 3 eexists. split; [reflexivity |].
    repeat split; auto; do 2 eexists; (split; [| reflexivity]); apply drawn_bytes_length.
  - open_world w. py_cbv. subst. py_cbv. close_run.
    do 3 eexists. split; [reflexivity |].
    repeat split; auto; do 2 eexists; (split; [| reflexivity]); apply drawn_bytes_length.
Qed.

(** The same for a wallet, once the PIN is accepted. *)
Lemma add_wallet_run
    (self wallet_name username password recovery_phrase master_password pin : string)
    (w : World) (k : list byte) :
  w_fer w = Some k ->
  fst (verify_recovery_pin self pin w) = Ret true ->
  exists tok_u tok_p tok_r w',
    add_wallet self wallet_name username password recovery_phrase master_password pin w
      = (Ret tt, w')
    /\ db_wallets (w_db w') =
         <[(self, wallet_name) := (tok_u, tok_p, tok_r)]> (db_wallets (w_db w))
    /\ encrypts k (blank_if_zero username) tok_u
    /\ encrypts k (if is_gen password
                   then chosen alphabet (w_entropy w) (w_drawn w) 25
                   else blank_if_zero password) tok_p
    /\ encrypts k (blank_if_zero recovery_phrase) tok_r.
Proof.
  intros Hfer Hpin. unfold encrypts.
  name_run (add_wallet self wallet_name username password recovery_phrase
              master_password pin w).
  unfold add_wallet, generate_secure_password. unfold bind at 1.
  destruct (verify_recovery_pin_frame self pin w) as (events & Hw & _).
  destruct (verify_recovery_pin self pin w) as [r1 w1]. cbn [fst snd] in *.
  subst r1 w1.
  destruct (is_gen password) eqn:Hgen.
  - unfold bind at 1 2. rewrite join_choices_run.
    open_world w. py_cbv. subst. py_cbv. close_run.
    rewrite (blank_if_zero_long (chosen _ _ _ _)) by (rewrite chosen_length; discriminate).
    do 4 eexists. split; [reflexivity |].
    repeat split; auto; do 2 eexists; (split; [| reflexivity]); apply drawn_bytes_length.
  - open_world w. py_cbv. subst. py_cbv. close_run.
    do 4 eexists. split; [reflexivity |].
    repeat split; auto; do 2 eexists; (split; [| reflexivity]); apply drawn_bytes_length.
Qed.

(** What [get_credentials] answers, given the answer of the login check. *)
Lemma get_credentials_result (self site master_password : string) (w : World) :
  fst (get_credentials self site master_password w) =
    match fst (verify_master_password self master_password w) with
    | Ret true =>
        match db_sites (w_db w) !! (self, site) with
        | Some (enc_username, enc_password) =>
            match w_fer w with
            | Some key =>
                match fernet_decrypt key enc_username with
                | Some pu =>
                    match fernet_decrypt key enc_password with
                    | Some pp =>
                        Ret (Some (<["username" := PyStr.or_else pu "No username"]>
                                   (<["password" := PyStr.or_else pp "No password"]> ∅)))
                    | None => Raise InvalidToken
                    end
                | None => Raise InvalidToken
                end
            | None => Raise no_fer
            end
        | None => Ret None
        end
    | _ => Raise (ValueError "Invalid master password")
    end.
Proof.
  name_run (get_credentials self site master_password w).
  unfold get_credentials. unfold bind at 1.
  pose proof (verify_master_password_frame self master_password w) as F.
  cbv zeta in F.
  destruct (verify_master_password self master_password w) as [r1 w1].
  cbn [fst snd] in *.
  destruct F as ((b & ->) & _ & _ & _ & _ & Hsites & _ & Hfer & _).
  rewrite <- Hsites, <- Hfer. clear Hsites Hfer.
  open_world w1. py_cbv. py_paths; close_run; reflexivity.
Qed.

(** What [get_wallet] answers, given the answer of the PIN check. *)
Lemma get_wallet_result (self wallet_name master_password pin : string) (w : World) :
  fst (get_wallet self wallet_name master_password pin w) =
    match fst (verify_recovery_pin self pin w) with
    | Ret true =>
        match db_wallets (w_db w) !! (self, wallet_name) with
        | Some (enc_username, enc_password, enc_recovery) =>
            match wallet_field (w_fer w) enc_username,
                  wallet_field (w_fer w) enc_password,
                  wallet_field (w_fer w) enc_recovery with
            | Ret pu, Ret pp, Ret pr =>
                Ret (Some
                       (<["username" := PyStr.or_else pu "No username"]>
                        (<["password" := PyStr.or_else pp "No password"]>
                         (<["recovery_phrase" :=
                              PyStr.or_else pr "No recovery phrase"]> ∅))))
            | _, _, _ => Ret None
            end
        | None => Ret None
        end
    | Ret false => Raise (ValueError "Invalid PIN")
    | Raise e => Raise e
    end.
Proof.
  name_run (get_wallet self wallet_name master_password pin w).
  unfold get_wallet. unfold bind at 1.
  destruct (verify_recovery_pin_frame self pin w) as (events & Hw & _).
  destruct (verify_recovery_pin self pin w) as [r1 w1]. cbn [fst snd] in *.
  subst w1. unfold wallet_field.
  open_world w. py_cbv. py_paths; close_run; reflexivity.
Qed.

(** What [add_secure_doc] hands back with a cipher loaded. *)
Lemma add_secure_doc_run (self doc_name doc_contents : string) (docs : Docs)
    (w : World) (k : list byte) :
  w_fer w = Some k ->
  exists tok w',
    add_secure_doc self doc_name doc_contents docs w
      = (Ret (<[(self, doc_name) := (doc_name, tok)]> docs), w')
    /\ encrypts k doc_contents tok.
Proof.
  intros Hfer. unfold encrypts.
  name_run (add_secure_doc self doc_name doc_contents docs w).
  unfold add_secure_doc. open_world w. py_cbv. subst. py_cbv. close_run.
  do 2 eexists. split; [reflexivity |].
  do 2 eexists. split; [apply drawn_bytes_length | reflexivity].
Qed.

(** A token that does not decrypt under the cached cipher raises. *)
Lemma fer_decrypt_undecryptable (token : string) (w : World) (k : list byte) :
  w_fer w = Some k -> fernet_decrypt k token = None ->
  fer_decrypt token w = (Raise InvalidToken, w).
Proof. intros Hfer Hbad. unfold fer_decrypt. rewrite Hfer, Hbad. reflexivity. Qed.

(** [get_secure_doc] on contents that do not decrypt. *)
Lemma get_secure_doc_undecryptable (self doc_name master_password : string) (docs : Docs)
    (w : World) (k : list byte) (row : string * string) :
  w_fer w = Some k ->
  docs !! (self, doc_name) = Some row ->
  fernet_decrypt k (snd row) = None ->
  get_secure_doc self doc_name master_password docs w =
    (Ret None,
     with_trace (w_trace w ++ [EvPrint ("Decryption error: " +:+ exn_str InvalidToken)]) w).
Proof.
  intros Hfer Hrow Hbad. unfold get_secure_doc. rewrite Hrow.
  unfold try_except, bind at 1.
  rewrite (fer_decrypt_undecryptable _ _ _ Hfer Hbad). reflexivity.
Qed.

(** [get_wallet] on a wallet with a token that does not decrypt: the error
    is the last line printed. *)
Lemma get_wallet_undecryptable
    (self wallet_name master_password pin : string) (w : World) (k : list byte)
    (tok_u tok_p tok_r : string) :
  fst (verify_recovery_pin self pin w) = Ret true ->
  w_fer w = Some k ->
  db_wallets (w_db w) !! (self, wallet_name) = Some (tok_u, tok_p, tok_r) ->
  (exists tok, (tok = tok_u \/ tok = tok_p \/ tok = tok_r)
               /\ tok <> "" /\ fernet_decrypt k tok = None) ->
  last (w_trace (snd (get_wallet self wallet_name master_password pin w)))
    = Some (EvPrint ("Error: " +:+ exn_str InvalidToken)).
Proof.
  intros Hpin Hfer Hrow (tok & Hwhich & Hne & Hbad).
  apply truthy_true in Hne.
  name_run (get_wallet self wallet_name master_password pin w).
  unfold get_wallet. unfold bind at 1.
  destruct (verify_recovery_pin_frame self pin w) as (events & Hw & _).
  destruct (verify_recovery_pin self pin w) as [r1 w1]. cbn [fst snd] in *.
  subst r1 w1.
  open_world w. py_cbv. subst. py_cbv. rewrite Hrow.
  destruct Hwhich as [-> | [-> | ->]].
  - rewrite Hne, Hbad. close_run. apply last_snoc.
  - destruct (PyStr.truthy tok_u); [destruct (fernet_decrypt k tok_u) |];
      rewrite ?Hne, ?Hbad; close_run; apply last_snoc.
  - destruct (PyStr.truthy tok_u); [destruct (fernet_decrypt k tok_u) |];
      (destruct (PyStr.truthy tok_p); [destruct (fernet_decrypt k tok_p) |]);
      rewrite ?Hne, ?Hbad; close_run; apply last_snoc.
Qed.

End Vault.

Section VaultClaims.

Context {prim : Primitives}.

Lemma Ret_inj {A : Type} (a b : A) : Ret a = Ret b -> a = b.
Proof. intros [= ->]. reflexivity. Qed.

(** What [reset_master_password] leaves behind. *)
Lemma reset_master_password_run (self new_password : string) (w : World) :
  let salt :=
    match db_salt (w_db w) !! self with
    | Some (b :: bs) => b :: bs
    | _ => drawn_bytes (w_entropy w) (w_drawn w + 16) 16
    end in
  let w' := snd (reset_master_password self new_password w) in
  fst (reset_master_password self new_password w) = Ret tt
  /\ db_password (w_db w') !! self =
       Some (ph_hash new_password (drawn_bytes (w_entropy w) (w_drawn w) 16))
  /\ db_salt (w_db w') !! self = Some salt
  /\ w_fer w' = Some (pbkdf2_key salt new_password)
  /\ db_sites (w_db w') = db_sites (w_db w)
  /\ db_wallets (w_db w') = db_wallets (w_db w)
  /\ db_lockout (w_db w') = db_lockout (w_db w).
Proof.
  intros salt w'. subst salt w'.
  name_run (reset_master_password self new_password w).
  open_world w. py_cbv. py_paths; close_run.
  all: rewrite ?lookup_insert_eq; auto 10.
Qed.

(** C6.  [reset_master_password] stores the hash of the new password and
    caches the key derived from the new password and the user's salt; it
    writes no site and no wallet (nor a document: it is not handed the
    documents), so every stored token is the one that was there.  What
    [add_credentials], [add_wallet] and [add_secure_doc] store are
    encryptions under the key cached at the time.  So, on an authenticated
    cipher whose tokens are not empty, when the new key differs from the key
    [k_old] a field was encrypted under, decrypting that field raises
    [InvalidToken] and no retrieval returns it: [get_credentials] raises
    [InvalidToken] once the login check passes (and [ValueError] when it
    does not); [get_wallet], once the PIN is accepted, and [get_secure_doc]
    catch the error, print it and answer [None]. *)
Theorem reset_orphans_stored_credentials
    (self new_password : string) (w1 : World) (k_old : list byte) :
  let w2 := snd (reset_master_password self new_password w1) in
  let sealed := fun tok : string => exists p : string, encrypts k_old p tok in
  fernet_authentic ->
  fernet_tokens_nonempty ->
  fst (reset_master_password self new_password w1) = Ret tt
  /\ db_password (w_db w2) !! self =
       Some (ph_hash new_password (drawn_bytes (w_entropy w1) (w_drawn w1) 16))
  /\ db_sites (w_db w2) = db_sites (w_db w1)
  /\ db_wallets (w_db w2) = db_wallets (w_db w1)
  /\ (forall w0 : World,
        w_fer w0 = Some k_old ->
        (forall site username password,
            fst (add_credentials self site username password w0) = Ret true
            /\ exists tok_u tok_p,
                 db_sites (w_db (snd (add_credentials self site username password w0)))
                   !! (self, site) = Some (tok_u, tok_p)
                 /\ sealed tok_u /\ sealed tok_p)
        /\ (forall wallet_name username password recovery_phrase master_password pin,
               fst (verify_recovery_pin self pin w0) = Ret true ->
               exists tok_u tok_p tok_r,
                 db_wallets
                   (w_db (snd (add_wallet self wallet_name username password
                                 recovery_phrase master_password pin w0)))
                   !! (self, wallet_name) = Some (tok_u, tok_p, tok_r)
                 /\ sealed tok_u /\ sealed tok_p /\ sealed tok_r)
        /\ (forall doc_name doc_contents (docs : Docs),
               exists tok,
                 fst (add_secure_doc self doc_name doc_contents docs w0)
                   = Ret (<[(self, doc_name) := (doc_name, tok)]> docs)
                 /\ sealed tok))
  /\ exists k_new salt,
       db_salt (w_db w2) !! self = Some salt
       /\ k_new = pbkdf2_key salt new_password
       /\ w_fer w2 = Some k_new
       /\ (k_new <> k_old ->
           (forall tok, sealed tok -> fer_decrypt tok w2 = (Raise InvalidToken, w2))
           /\ (forall site tok_u tok_p,
                  db_sites (w_db w1) !! (self, site) = Some (tok_u, tok_p) ->
                  sealed tok_u \/ sealed tok_p ->
                  forall master_password,
                    (fst (verify_master_password self master_password w2) = Ret true ->
                     fst (get_credentials self site master_password w2) = Raise InvalidToken)
                    /\ (forall d, fst (get_credentials self site master_password w2) <> Ret d))
           /\ (forall wallet_name tok_u tok_p tok_r,
                  db_wallets (w_db w1) !! (self, wallet_name) = Some (tok_u, tok_p, tok_r) ->
                  sealed tok_u \/ sealed tok_p \/ sealed tok_r ->
                  forall master_password pin,
                    (fst (verify_recovery_pin self pin w2) = Ret true ->
                     fst (get_wallet self wallet_name master_password pin w2) = Ret None
                     /\ last (w_trace (snd (get_wallet self wallet_name master_password
                                              pin w2)))
                        = Some (EvPrint ("Error: " +:+ exn_str InvalidToken)))
                    /\ (forall d, fst (get_wallet self wallet_name master_password pin w2)
                                  <> Ret (Some d)))
           /\ (forall (docs : Docs) doc_name name tok,
                  docs !! (self, doc_name) = Some (name, tok) ->
                  sealed tok ->
                  forall master_password,
                    get_secure_doc self doc_name master_password docs w2 =
                      (Ret None,
                       with_trace
                         (w_trace w2
                          ++ [EvPrint ("Decryption error: " +:+ exn_str InvalidToken)])
                         w2))).
Proof.
  intros w2 sealed Hauth Hnonempty.
  destruct (reset_master_password_run self new_password w1)
    as (Hret & Hpw & Hsalt & Hkey & Hsites2 & Hwallets2 & _).
  fold w2 in Hpw, Hsalt, Hkey, Hsites2, Hwallets2.
  do 4 (split; [assumption |]).
  split.
  { intros w0 Hfer. split; [| split].
    - intros site username password.
      destruct (add_credentials_run self site username password w0 k_old Hfer)
        as (tok_u & tok_p & w' & -> & Hsites & Hu & Hp & _).
      cbn [fst snd]. split; [reflexivity |].
      exists tok_u, tok_p. rewrite Hsites, lookup_insert_eq.
      split; [reflexivity |]. split; eexists; eassumption.
    - intros wallet_name username password recovery_phrase master_password pin Hpin.
      destruct (add_wallet_run self wallet_name username password recovery_phrase
                  master_password pin w0 k_old Hfer Hpin)
        as (tok_u & tok_p & tok_r & w' & -> & Hwallets & Hu & Hp & Hr).
      cbn [snd]. exists tok_u, tok_p, tok_r. rewrite Hwallets, lookup_insert_eq.
      split; [reflexivity |]. repeat split; eexists; eassumption.
    - intros doc_name doc_contents docs.
      destruct (add_secure_doc_run self doc_name doc_contents docs w0 k_old Hfer)
        as (tok & w' & -> & Htok).
      exists tok. split; [reflexivity |]. eexists; eassumption. }
  match type of Hsalt with _ = Some ?s => set (salt := s) in * end.
  clearbody salt.
  exists (pbkdf2_key salt new_password), salt.
  split; [exact Hsalt |]. split; [reflexivity |]. split; [exact Hkey |].
  set (k_new := pbkdf2_key salt new_password) in *. clearbody k_new.
  intros Hne.
  assert (Hbad : forall tok, sealed tok -> tok <> "" /\ fernet_decrypt k_new tok = None).
  { intros tok (p & iv & t & _ & ->). split; [apply Hnonempty |].
    apply Hauth. congruence. }
  clearbody w2.
  split; [| split; [| split]].
  - intros tok Hs. destruct (Hbad tok Hs) as [_ Hnone].
    exact (fer_decrypt_undecryptable _ _ _ Hkey Hnone).
  - intros site tok_u tok_p Hrow Hsealed master_password.
    assert (Hget : forall b, fst (verify_master_password self master_password w2) = Ret b ->
                   fst (get_credentials self site master_password w2) =
                     if b then Raise InvalidToken
                     else Raise (ValueError "Invalid master password")).
    { intros b Hb. rewrite get_credentials_result, Hb. destruct b; [| reflexivity].
      rewrite Hsites2, Hrow, Hkey.
      destruct Hsealed as [Hs | Hs]; destruct (Hbad _ Hs) as [_ Hnone].
      - rewrite Hnone. reflexivity.
      - rewrite Hnone. destruct (fernet_decrypt _ tok_u); reflexivity. }
    split.
    + intros Hok. rewrite (Hget true Hok). reflexivity.
    + intros d.
      destruct (verify_master_password_frame self master_password w2) as ((b & Hb) & _).
      rewrite (Hget b Hb). destruct b; discriminate.
  - intros wallet_name tok_u tok_p tok_r Hrow Hsealed master_password pin.
    rewrite <- Hwallets2 in Hrow.
    assert (Hone : exists tok, (tok = tok_u \/ tok = tok_p \/ tok = tok_r) /\ tok <> ""
                               /\ fernet_decrypt k_new tok = None).
    { destruct Hsealed as [Hs | [Hs | Hs]]; destruct (Hbad _ Hs); eauto 10. }
    assert (Hnone : fst (verify_recovery_pin self pin w2) = Ret true ->
                    fst (get_wallet self wallet_name master_password pin w2) = Ret None).
    { intros Hpin. rewrite get_wallet_result, Hpin, Hrow.
      destruct Hone as (tok & Hwhich & Hnon & Hdec).
      assert (Hfield : wallet_field (w_fer w2) tok = Raise InvalidToken).
      { unfold wallet_field. apply truthy_true in Hnon. rewrite Hnon, Hkey, Hdec.
        reflexivity. }
      destruct Hwhich as [-> | [-> | ->]]; rewrite Hfield; repeat case_match; reflexivity. }
    split.
    + intros Hpin. split; [exact (Hnone Hpin) |].
      exact (get_wallet_undecryptable _ _ _ _ _ _ _ _ _ Hpin Hkey Hrow Hone).
    + intros d Hd.
      destruct (fst (verify_recovery_pin self pin w2)) as [[|] | e] eqn:Hpin.
      * rewrite (Hnone eq_refl) in Hd. discriminate Hd.
      * rewrite get_wallet_result, Hpin in Hd. discriminate Hd.
      * rewrite get_wallet_result, Hpin in Hd. discriminate Hd.
  - intros docs doc_name name tok Hrow Hs master_password.
    destruct (Hbad _ Hs) as [_ Hdec].
    exact (get_secure_doc_undecryptable _ _ _ _ _ _ _ Hkey Hrow Hdec).
Qed.

(** C8.  With a cipher loaded, [add_credentials] stores, for a username or a
    password given as [0], a token that encrypts the empty string; so does
    [add_wallet], once the PIN is accepted, for a username, a password or a
    recovery phrase given as [0]. *)
Theorem zero_sentinel_stored_empty (self : string) (w : World) (k : list byte) :
  w_fer w = Some k ->
  (forall site username password,
      let run := add_credentials self site username password w in
      fst run = Ret true
      /\ exists tok_u tok_p,
           db_sites (w_db (snd run)) !! (self, site) = Some (tok_u, tok_p)
           /\ (username = "0" -> encrypts k "" tok_u)
           /\ (password = "0" -> encrypts k "" tok_p))
  /\ (forall wallet_name username password recovery_phrase master_password pin,
         let run := add_wallet self wallet_name username password recovery_phrase
                      master_password pin w in
         fst (verify_recovery_pin self pin w) = Ret true ->
         fst run = Ret tt
         /\ exists tok_u tok_p tok_r,
              db_wallets (w_db (snd run)) !! (self, wallet_name) = Some (tok_u, tok_p, tok_r)
              /\ (username = "0" -> encrypts k "" tok_u)
              /\ (password = "0" -> encrypts k "" tok_p)
              /\ (recovery_phrase = "0" -> encrypts k "" tok_r)).
Proof.
  intros Hfer. split.
  - intros site username password run. subst run.
    destruct (add_credentials_run self site username password w k Hfer)
      as (tok_u & tok_p & w' & -> & Hsites & Hu & Hp & _).
    cbn [fst snd]. split; [reflexivity |].
    exists tok_u, tok_p. rewrite Hsites, lookup_insert_eq.
    split; [reflexivity |]. split; intros ->; assumption.
  - intros wallet_name username password recovery_phrase master_password pin run Hpin.
    subst run.
    destruct (add_wallet_run self wallet_name username password recovery_phrase
                master_password pin w k Hfer Hpin)
      as (tok_u & tok_p & tok_r & w' & -> & Hwallets & Hu & Hp & Hr).
    cbn [fst snd]. split; [reflexivity |].
    exists tok_u, tok_p, tok_r. rewrite Hwallets, lookup_insert_eq.
    split; [reflexivity |]. repeat split; intros ->; assumption.
Qed.

(** [generate_secure_password] returns the characters its draws select. *)
Lemma generate_secure_password_run (n : nat) (w : World) :
  generate_secure_password n w =
    (Ret (chosen alphabet (w_entropy w) (w_drawn w) n), with_drawn (w_drawn w + n)%nat w).
Proof. unfold generate_secure_password. apply join_choices_run. Qed.

Lemma generate_secure_password_differ (n : nat) (w w2 : World) :
  (exists i, (i < n)%nat
             /\ (w_entropy w (w_drawn w + i) mod 94)%nat
                <> (w_entropy w2 (w_drawn w2 + i) mod 94)%nat) ->
  fst (generate_secure_password n w2) <> Ret (chosen alphabet (w_entropy w) (w_drawn w) n).
Proof.
  intros Hdiff Heq. rewrite generate_secure_password_run in Heq.
  cbn [fst] in Heq. apply Ret_inj in Heq.
  eapply chosen_differ; [exact Hdiff | symmetry; exact Heq].
Qed.

(** C9.  When the password given is [gen] up to surrounding whitespace and
    letter case, the password [add_credentials] (and [add_wallet], once the
    PIN is accepted) encrypts and stores is the one [generate_secure_password]
    draws: 25 characters, each from letters, digits and punctuation.  A run
    whose 25 draws differ from this one's at some position generates a
    different password. *)
Theorem gen_keyword_generates_password
    (self password : string) (w : World) (k : list byte) :
  let g := chosen alphabet (w_entropy w) (w_drawn w) 25 in
  w_fer w = Some k ->
  is_gen password = true ->
  fst (generate_secure_password 25 w) = Ret g
  /\ String.length g = 25%nat
  /\ Forall (fun c => In c (list_ascii_of_string alphabet)) (list_ascii_of_string g)
  /\ (forall site username,
         let run := add_credentials self site username password w in
         fst run = Ret true
         /\ exists tok_u tok_p,
              db_sites (w_db (snd run)) !! (self, site) = Some (tok_u, tok_p)
              /\ encrypts k g tok_p)
  /\ (forall wallet_name username recovery_phrase master_password pin,
         let run := add_wallet self wallet_name username password recovery_phrase
                      master_password pin w in
         fst (verify_recovery_pin self pin w) = Ret true ->
         fst run = Ret tt
         /\ exists tok_u tok_p tok_r,
              db_wallets (w_db (snd run)) !! (self, wallet_name) = Some (tok_u, tok_p, tok_r)
              /\ encrypts k g tok_p)
  /\ (forall w2 : World,
         (exists i, (i < 25)%nat
                    /\ (w_entropy w (w_drawn w + i) mod 94)%nat
                       <> (w_entropy w2 (w_drawn w2 + i) mod 94)%nat) ->
         fst (generate_secure_password 25 w2) <> Ret g).
Proof.
  intros g Hfer Hgen.
  generalize (generate_secure_password_run 25 w).
  generalize (generate_secure_password_differ 25 w).
  generalize (chosen_length alphabet (w_entropy w) (w_drawn w) 25).
  generalize (chosen_in_alphabet (w_entropy w) (w_drawn w) 25).
  generalize (fun site username =>
                add_credentials_run self site username password w k Hfer).
  generalize (fun wallet_name username recovery_phrase master_password pin =>
                add_wallet_run self wallet_name username password recovery_phrase
                  master_password pin w k Hfer).
  rewrite Hgen. fold g. clearbody g.
  intros Hwallet Hsite Hin Hlen Hdiff Hrun.
  split; [rewrite Hrun; reflexivity |].
  split; [exact Hlen |]. split; [exact Hin |].
  split; [| split].
  - intros site username run. subst run.
    destruct (Hsite site username) as (tok_u & tok_p & w' & -> & Hsites & _ & Hp & _).
    cbn [fst snd]. split; [reflexivity |].
    exists tok_u, tok_p. rewrite Hsites, lookup_insert_eq. auto.
  - intros wallet_name username recovery_phrase master_password pin run Hpin. subst run.
    destruct (Hwallet wallet_name username recovery_phrase master_password pin Hpin)
      as (tok_u & tok_p & tok_r & w' & -> & Hwallets & _ & Hp & _).
    cbn [fst snd]. split; [reflexivity |].
    exists tok_u, tok_p, tok_r. rewrite Hwallets, lookup_insert_eq. auto.
  - exact Hdiff.
Qed.

Lemma or_else_not_empty (s placeholder : string) :
  placeholder <> "" -> PyStr.or_else s placeholder <> "".
Proof.
  intros Hp. unfold PyStr.or_else, PyStr.truthy.
  destruct (String.eqb s "") eqn:E; simpl; [exact Hp |].
  apply String.eqb_neq in E. exact E.
Qed.

(** C10.  Whenever [get_credentials] returns a record, its fields are the
    decrypted username and password with [No username] and [No password] in
    place of an empty one; whenever [get_wallet] returns a record, likewise
    with [No recovery phrase] for the third field.  No returned field is the
    empty string. *)
Theorem empty_fields_read_as_placeholders (self : string) (w : World) :
  (forall site master_password d,
      fst (get_credentials self site master_password w) = Ret (Some d) ->
      exists k tok_u tok_p pu pp,
        w_fer w = Some k
        /\ db_sites (w_db w) !! (self, site) = Some (tok_u, tok_p)
        /\ fernet_decrypt k tok_u = Some pu
        /\ fernet_decrypt k tok_p = Some pp
        /\ d !! "username" = Some (PyStr.or_else pu "No username")
        /\ d !! "password" = Some (PyStr.or_else pp "No password")
        /\ (pu = "" -> d !! "username" = Some "No username")
        /\ (pp = "" -> d !! "password" = Some "No password")
        /\ d !! "username" <> Some "" /\ d !! "password" <> Some "")
  /\ (forall wallet_name master_password pin d,
         fst (get_wallet self wallet_name master_password pin w) = Ret (Some d) ->
         exists tok_u tok_p tok_r pu pp pr,
           db_wallets (w_db w) !! (self, wallet_name) = Some (tok_u, tok_p, tok_r)
           /\ wallet_field (w_fer w) tok_u = Ret pu
           /\ wallet_field (w_fer w) tok_p = Ret pp
           /\ wallet_field (w_fer w) tok_r = Ret pr
           /\ d !! "username" = Some (PyStr.or_else pu "No username")
           /\ d !! "password" = Some (PyStr.or_else pp "No password")
           /\ d !! "recovery_phrase" = Some (PyStr.or_else pr "No recovery phrase")
           /\ (pu = "" -> d !! "username" = Some "No username")
           /\ (pp = "" -> d !! "password" = Some "No password")
           /\ (pr = "" -> d !! "recovery_phrase" = Some "No recovery phrase")
           /\ d !! "username" <> Some "" /\ d !! "password" <> Some ""
           /\ d !! "recovery_phrase" <> Some "")
  /\ (forall site master_password k tok_u tok_p pu pp,
         fst (verify_master_password self master_password w) = Ret true ->
         w_fer w = Some k ->
         db_sites (w_db w) !! (self, site) = Some (tok_u, tok_p) ->
         fernet_decrypt k tok_u = Some pu ->
         fernet_decrypt k tok_p = Some pp ->
         fst (get_credentials self site master_password w) =
           Ret (Some (<["username" := PyStr.or_else pu "No username"]>
                      (<["password" := PyStr.or_else pp "No password"]> ∅))))
  /\ (forall wallet_name master_password pin tok_u tok_p tok_r pu pp pr,
         fst (verify_recovery_pin self pin w) = Ret true ->
         db_wallets (w_db w) !! (self, wallet_name) = Some (tok_u, tok_p, tok_r) ->
         wallet_field (w_fer w) tok_u = Ret pu ->
         wallet_field (w_fer w) tok_p = Ret pp ->
         wallet_field (w_fer w) tok_r = Ret pr ->
         fst (get_wallet self wallet_name master_password pin w) =
           Ret (Some (<["username" := PyStr.or_else pu "No username"]>
                      (<["password" := PyStr.or_else pp "No password"]>
                       (<["recovery_phrase" :=
                            PyStr.or_else pr "No recovery phrase"]> ∅))))).
Proof.
  split; [| split; [| split]].
  - intros site master_password d Hget.
    rewrite get_credentials_result in Hget.
    repeat case_match; simplify_eq.
    eexists _, _, _, _, _. do 4 (split; [eauto |]).
    rewrite lookup_insert_eq, lookup_insert_ne, lookup_insert_eq by discriminate.
    repeat split; try (intros ->; reflexivity).
    all: intros [= Hempty]; eapply or_else_not_empty; [| exact Hempty]; discriminate.
  - intros wallet_name master_password pin d Hget.
    rewrite get_wallet_result in Hget.
    repeat case_match; simplify_eq.
    eexists _, _, _, _, _, _. do 4 (split; [eauto |]).
    rewrite lookup_insert_eq.
    rewrite lookup_insert_ne, lookup_insert_eq by discriminate.
    rewrite !lookup_insert_ne, lookup_insert_eq by discriminate.
    repeat split; try (intros ->; reflexivity).
    all: intros [= Hempty]; eapply or_else_not_empty; [| exact Hempty]; discriminate.
  - intros site master_password k tok_u tok_p pu pp Hok Hfer Hrow Hu Hp.
    rewrite get_credentials_result, Hok, Hrow, Hfer, Hu, Hp. reflexivity.
  - intros wallet_name master_password pin tok_u tok_p tok_r pu pp pr Hok Hrow Hu Hp Hr.
    rewrite get_wallet_result, Hok, Hrow, Hu, Hp, Hr. reflexivity.
Qed.

(** A field stored through the [0] sentinel comes back as its placeholder:
    with a cipher that decrypts what it encrypted, a site stored with the
    username [0] reads [No username] at the next successful retrieval. *)
Lemma zero_sentinel_reads_back_as_placeholder
    (self site password master_password : string) (w : World) (k : list byte) :
  let w1 := snd (add_credentials self site "0" password w) in
  fernet_round_trip ->
  w_fer w = Some k ->
  fst (verify_master_password self master_password w1) = Ret true ->
  exists d,
    fst (get_credentials self site master_password w1) = Ret (Some d)
    /\ d !! "username" = Some "No username".
Proof.
  intros w1 Hrt Hfer Hok.
  destruct (add_credentials_run self site "0" password w k Hfer)
    as (tok_u & tok_p & w1' & Hadd & Hsites & (iv & t & _ & Hu) & (iv' & t' & _ & Hp)
        & _ & _ & _ & Hfer1).
  assert (Hw1 : w1 = w1') by (subst w1; rewrite Hadd; reflexivity).
  rewrite get_credentials_result, Hok, Hw1, Hsites, lookup_insert_eq, Hfer1, Hu, Hp.
  rewrite !Hrt. eexists. split; [reflexivity |].
  rewrite lookup_insert_eq. reflexivity.
Qed.

End VaultClaims.

(** ** Further properties of the manager *)

(** What [read_secure_input] consumes: empty lines, then the line it acts on. *)
Lemma read_secure_input_spec (lines : list string) :
  match read_secure_input lines with
  | (Ret (Some s), rest) =>
      s <> "" /\ PyStr.contains "esc" (PyStr.lower s) = false
      /\ exists skipped, lines = (skipped ++ s :: rest)%list
                         /\ Forall (fun l => l = "") skipped
  | (Ret None, rest) =>
      exists skipped l, lines = (skipped ++ l :: rest)%list
                        /\ Forall (fun l => l = "") skipped
                        /\ PyStr.contains "esc" (PyStr.lower l) = true
  | (Raise e, rest) => e = EOFError /\ rest = [] /\ Forall (fun l => l = "") lines
  end.
Proof.
  induction lines as [| l lines IH]; simpl; [auto |].
  destruct (PyStr.contains "esc" (PyStr.lower l)) eqn:Hesc.
  { exists [], l. auto. }
  destruct (PyStr.truthy l) eqn:Ht.
  { split; [apply truthy_true; exact Ht |]. split; [exact Hesc |]. exists []. auto. }
  apply truthy_false in Ht. subst l.
  destruct (read_secure_input lines) as [[[s |] | e] rest].
  - destruct IH as (Hne & Hs & skipped & -> & Hall).
    split; [exact Hne |]. split; [exact Hs |]. exists ("" :: skipped). auto.
  - destruct IH as (skipped & l & -> & Hall & Hl).
    exists ("" :: skipped), l. auto.
  - destruct IH as (-> & -> & Hall). auto.
Qed.

Lemma read_secure_input_eof (lines : list string) :
  (forall l, In l lines -> l = "") -> read_secure_input lines = (Raise EOFError, []).
Proof.
  induction lines as [| l lines IH]; intros Hall; simpl; [reflexivity |].
  rewrite (Hall l) by (left; reflexivity). simpl.
  apply IH. intros l' Hl'. apply Hall. right. exact Hl'.
Qed.

(** X1.  [get_secure_input] changes nothing but the pending input.  It skips
    empty lines; an answer it returns is not empty and does not contain
    [esc] in any letter case; it returns [None] at the first line that does;
    and it raises [EOFError] only when every pending line is empty. *)
Theorem get_secure_input_reads (prompt : string) (is_password : bool) (w : World) :
  let r := fst (get_secure_input prompt is_password w) in
  let w' := snd (get_secure_input prompt is_password w) in
  w' = with_stdin (w_stdin w') w
  /\ match r with
     | Ret (Some s) =>
         s <> "" /\ PyStr.contains "esc" (PyStr.lower s) = false
         /\ exists skipped, w_stdin w = (skipped ++ s :: w_stdin w')%list
                            /\ Forall (fun l => l = "") skipped
     | Ret None =>
         exists skipped l, w_stdin w = (skipped ++ l :: w_stdin w')%list
                           /\ Forall (fun l => l = "") skipped
                           /\ PyStr.contains "esc" (PyStr.lower l) = true
     | Raise e => e = EOFError /\ w_stdin w' = [] /\ Forall (fun l => l = "") (w_stdin w)
     end.
Proof.
  intros r w'. subst r w'. unfold get_secure_input.
  pose proof (read_secure_input_spec (w_stdin w)) as Hspec.
  destruct (read_secure_input (w_stdin w)) as [r rest]. cbn [fst snd].
  split; [reflexivity |]. exact Hspec.
Qed.

Section LoginErrors.

Context {prim : Primitives}.

(** X2.  With the lockout elapsed, a login for a user with no stored hash (or
    an empty one) is answered [False] after the two reads of the store: no
    hash comparison is made and nothing is written, so such attempts are
    never counted. *)
Theorem verify_master_password_unknown_user (self master_password : string) (w : World) :
  lockout_until (lockout_of w self) <= w_clock w (w_ticks w) ->
  truthy_opt (db_password (w_db w) !! self) = false ->
  verify_master_password self master_password w =
    (Ret false,
     with_trace
       (w_trace w ++
        [EvDb GetLockoutData self; EvDb GetUserPassword self;
         EvPrint ("Invalid username or password for user: " +:+ self)])
       (with_ticks (S (w_ticks w)) w)).
Proof.
  intros Hopen Hnone. apply Z.ltb_ge in Hopen. unfold truthy_opt in Hnone.
  destruct (db_password (w_db w) !! self) as [stored |] eqn:Hst.
  all: open_world w; py_cbv; rewrite Hopen, Hst; py_cbv; rewrite ?Hnone.
  all: rewrite <- !app_assoc; reflexivity.
Qed.

(** X3.  With the lockout elapsed and a stored hash, an error other than a
    mismatch ends the login with [False], a [Login failed] line, and the
    store as it was: when the hasher cannot check the stored hash, and when
    the input ends at the prompt for the second-factor code.  Neither is
    counted as a failed attempt. *)
Theorem verify_master_password_other_errors
    (self master_password stored : string) (w : World) :
  let r := fst (verify_master_password self master_password w) in
  let w' := snd (verify_master_password self master_password w) in
  lockout_until (lockout_of w self) <= w_clock w (w_ticks w) ->
  db_password (w_db w) !! self = Some stored ->
  PyStr.truthy stored = true ->
  (forall msg,
      ph_verify stored master_password = VerifyFailure msg ->
      r = Ret false /\ w_db w' = w_db w
      /\ last (w_trace w') = Some (EvPrint (PyStr.nl +:+ "Login failed: " +:+ msg)))
  /\ (ph_verify stored master_password = VerifyOk ->
      default "" (db_totp (w_db w) !! self) <> "" ->
      (forall l, In l (w_stdin w) -> l = "") ->
      r = Ret false /\ w_db w' = w_db w
      /\ last (w_trace w') =
           Some (EvPrint (PyStr.nl +:+ "Login failed: " +:+ "EOF when reading a line"))).
Proof.
  intros r w' Hopen Hst Htruthy. subst r w'. split.
  - intros msg Hfail.
    run_login w; try congruence; try lia.
    all: rewrite !last_snoc; auto.
  - intros Hok Hsecret Hempty.
    pose proof (read_secure_input_eof (w_stdin w) Hempty) as Heof.
    run_login w; try congruence; try lia.
    all: rewrite !last_snoc; auto.
Qed.

(** A [True] from [verify_master_password] means the stored hash verified. *)
Lemma verify_master_password_true_verified (self master_password : string) (w : World) :
  fst (verify_master_password self master_password w) = Ret true ->
  exists stored,
    db_password (w_db w) !! self = Some stored
    /\ PyStr.truthy stored = true
    /\ ph_verify stored master_password = VerifyOk
    /\ lockout_until (lockout_of w self) <= w_clock w (w_ticks w).
Proof.
  run_login w; intros; simplify_eq; eauto 6.
Qed.

(** What [load_key] answers and caches, given the answer of the login check. *)
Lemma load_key_result (self master_password : string) (w : World) :
  fst (load_key self master_password w) =
    match fst (verify_master_password self master_password w),
          db_salt (w_db w) !! self with
    | Ret true, Some (b :: bs) => Ret tt
    | Ret true, _ => Raise (ValueError "User salt not found")
    | _, _ => Raise (ValueError "Invalid master password")
    end
  /\ w_fer (snd (load_key self master_password w)) =
       match fst (verify_master_password self master_password w),
             db_salt (w_db w) !! self with
       | Ret true, Some (b :: bs) => Some (pbkdf2_key (b :: bs) master_password)
       | _, _ => w_fer w
       end
  /\ db_lockout (w_db (snd (load_key self master_password w))) =
       db_lockout (w_db (snd (verify_master_password self master_password w))).
Proof.
  name_run (load_key self master_password w). unfold load_key.
  pose proof (verify_master_password_frame self master_password w) as F.
  cbv zeta in F. unfold try_except, bind.
  destruct (verify_master_password self master_password w) as [r1 w1] eqn:Hv.
  cbn [fst snd] in *.
  destruct F as ((b & ->) & _ & _ & Hsalt & _ & _ & _ & Hfer & _ & _).
  rewrite <- Hsalt, <- Hfer. clear Hsalt Hfer Hv.
  open_world w1. py_cbv. py_paths; close_run; auto.
Qed.

(** X5.  [load_key] returns normally only when the stored hash verified and
    a salt is stored, and it then caches the key derived from that salt and
    the password; otherwise it raises [ValueError] and the cached cipher is
    the one the session had. *)
Theorem load_key_requires_verified_password (self master_password : string) (w : World) :
  let r := fst (load_key self master_password w) in
  let w' := snd (load_key self master_password w) in
  (r = Ret tt ->
     (exists stored, db_password (w_db w) !! self = Some stored
                     /\ ph_verify stored master_password = VerifyOk)
     /\ exists salt, db_salt (w_db w) !! self = Some salt /\ salt <> []
                     /\ w_fer w' = Some (pbkdf2_key salt master_password))
  /\ (r <> Ret tt ->
      (r = Raise (ValueError "Invalid master password")
       \/ r = Raise (ValueError "User salt not found"))
      /\ w_fer w' = w_fer w).
Proof.
  intros r w'. subst r w'.
  destruct (load_key_result self master_password w) as (Hr & Hf & _).
  pose proof (verify_master_password_true_verified self master_password w) as Hv.
  destruct (verify_master_password_frame self master_password w) as ((b & Hb) & _).
  rewrite Hr, Hf, Hb in *. clear Hr Hf.
  destruct b.
  - destruct (Hv eq_refl) as (stored & Hst & _ & Hok & _).
    destruct (db_salt (w_db w) !! self) as [[| b0 bs] |].
    + split; [discriminate | auto].
    + split; [| congruence]. intros _. split; [eauto |].
      exists (b0 :: bs). repeat split; congruence.
    + split; [discriminate | auto].
  - split; [discriminate | auto].
Qed.

End LoginErrors.

Section LoginSequences.

Context {prim : Primitives}.

(** A wrong password, with the lockout elapsed: the attempt is counted. *)
Lemma verify_master_password_mismatch_run
    (self master_password stored : string) (w : World) :
  let count := failed_attempts (lockout_of w self) + 1 in
  let w' := snd (verify_master_password self master_password w) in
  lockout_until (lockout_of w self) <= w_clock w (w_ticks w) ->
  db_password (w_db w) !! self = Some stored ->
  PyStr.truthy stored = true ->
  ph_verify stored master_password = VerifyMismatch ->
  fst (verify_master_password self master_password w) = Ret false
  /\ db_lockout (w_db w') !! self =
       Some {| failed_attempts := count;
               lockout_until :=
                 if (5 <=? count)%Z
                 then w_clock w (S (w_ticks w)) + (3 * 2 ^ (count - 5)) * 60 else 0 |}
  /\ w_ticks w' = S (S (w_ticks w))
  /\ w_clock w' = w_clock w.
Proof.
  intros count w' Hopen Hst Htruthy Hbad. subst count w'.
  run_login w; try congruence; try lia.
  all: rewrite ?lookup_insert_eq; auto.
  all: match goal with
       | Hle : (5 <= _)%Z |- _ => apply Z.leb_le in Hle; rewrite Hle; auto
       | Hlt : (_ < 5)%Z |- _ => apply Z.leb_gt in Hlt; rewrite Hlt; auto
       end.
Qed.

(** A right password, with the lockout elapsed and no second factor. *)
Lemma verify_master_password_accepts (self master_password stored : string) (w : World) :
  lockout_until (lockout_of w self) <= w_clock w (w_ticks w) ->
  db_password (w_db w) !! self = Some stored ->
  PyStr.truthy stored = true ->
  ph_verify stored master_password = VerifyOk ->
  default "" (db_totp (w_db w) !! self) = "" ->
  fst (verify_master_password self master_password w) = Ret true.
Proof.
  intros Hopen Hst Htruthy Hok Hsecret.
  run_login w; try congruence; try lia.
Qed.

(** While the lockout runs, the answer is [False] and the store is kept. *)
Lemma verify_master_password_denied (self master_password : string) (w : World) :
  w_clock w (w_ticks w) < lockout_until (lockout_of w self) ->
  fst (verify_master_password self master_password w) = Ret false
  /\ w_db (snd (verify_master_password self master_password w)) = w_db w.
Proof.
  intros Hlocked. run_login w; try lia; auto.
Qed.

Lemma login_attempts_succ (n : nat) (self master_password : string) (w : World) :
  login_attempts (S n) self master_password w =
    snd (verify_master_password self master_password
           (login_attempts n self master_password w)).
Proof. reflexivity. Qed.

(** The state after [n] wrong passwords, up to four, from a clean record. *)
Lemma login_attempts_below_threshold
    (self master_password stored : string) (w : World) (n : nat) :
  (forall i, 0 <= w_clock w i) ->
  db_password (w_db w) !! self = Some stored ->
  PyStr.truthy stored = true ->
  ph_verify stored master_password = VerifyMismatch ->
  lockout_of w self = DatabaseConnector.initial_lockout ->
  (n <= 4)%nat ->
  let wn := login_attempts n self master_password w in
  lockout_of wn self = {| failed_attempts := Z.of_nat n; lockout_until := 0 |}
  /\ w_ticks wn = (w_ticks w + 2 * n)%nat
  /\ w_clock wn = w_clock w
  /\ db_password (w_db wn) = db_password (w_db w).
Proof.
  intros Hclock Hst Htruthy Hbad Hclean. induction n as [| n IH]; intros Hn wn.
  - subst wn. simpl. rewrite Hclean, Nat.add_0_r. auto.
  - destruct (IH ltac:(lia)) as (Hrec & Hticks & Hclk & Hpw). clear IH.
    subst wn. rewrite login_attempts_succ.
    set (wp := login_attempts n self master_password w) in *.
    destruct (verify_master_password_mismatch_run self master_password stored wp)
      as (_ & Hrow & Ht & Hc).
    + rewrite Hrec, Hclk. simpl. apply Hclock.
    + rewrite Hpw. exact Hst.
    + exact Htruthy.
    + exact Hbad.
    + destruct (verify_master_password_frame self master_password wp)
        as (_ & Hpw' & _).
      rewrite Hrec in Hrow. cbn [failed_attempts] in Hrow.
      assert (Hlt : (5 <=? Z.of_nat n + 1)%Z = false) by (apply Z.leb_gt; lia).
      rewrite Hlt in Hrow.
      split; [unfold lockout_of; rewrite Hrow; cbn [default from_option id]; f_equal; lia |].
      split; [rewrite Ht, Hticks; lia |].
      split; [rewrite Hc; exact Hclk | rewrite Hpw'; exact Hpw].
Qed.

(** One more wrong password on a record of four failures. *)
Lemma fifth_failure_locks (self master_password stored : string) (w4 : World) :
  let w5 := snd (verify_master_password self master_password w4) in
  lockout_of w4 self = {| failed_attempts := 4; lockout_until := 0 |} ->
  0 <= w_clock w4 (w_ticks w4) ->
  db_password (w_db w4) !! self = Some stored ->
  PyStr.truthy stored = true ->
  ph_verify stored master_password = VerifyMismatch ->
  lockout_of w5 self
    = {| failed_attempts := 5; lockout_until := w_clock w4 (S (w_ticks w4)) + 180 |}
  /\ w_ticks w5 = S (S (w_ticks w4))
  /\ w_clock w5 = w_clock w4.
Proof.
  intros w5 Hrec Hclock Hst Htruthy Hbad.
  destruct (verify_master_password_mismatch_run self master_password stored w4)
    as (_ & Hrow & Ht & Hc); auto.
  { rewrite Hrec. exact Hclock. }
  fold w5 in Hrow, Ht, Hc. clearbody w5.
  rewrite Hrec in Hrow. cbn [failed_attempts] in Hrow.
  split; [| auto]. unfold lockout_of. rewrite Hrow. reflexivity.
Qed.

(** X4.  From a clean lockout record, with a clock that is never negative,
    wrong passwords in a row are counted one by one: after [n] of them, up
    to four, the record is [{n, 0}] and the account is not locked; the fifth
    locks it for 180 seconds from the time it was counted; and until then
    any further attempt, with any password, is denied and changes nothing. *)
Theorem five_wrong_passwords_lock (self master_password stored : string) (w : World) :
  let w5 := login_attempts 5 self master_password w in
  (forall i, 0 <= w_clock w i) ->
  db_password (w_db w) !! self = Some stored ->
  PyStr.truthy stored = true ->
  ph_verify stored master_password = VerifyMismatch ->
  lockout_of w self = DatabaseConnector.initial_lockout ->
  (forall n, (n <= 4)%nat ->
     lockout_of (login_attempts n self master_password w) self
       = {| failed_attempts := Z.of_nat n; lockout_until := 0 |})
  /\ lockout_of w5 self
       = {| failed_attempts := 5; lockout_until := w_clock w (w_ticks w + 9) + 180 |}
  /\ (forall other_password,
        w_clock w (w_ticks w + 10) < w_clock w (w_ticks w + 9) + 180 ->
        fst (verify_master_password self other_password w5) = Ret false
        /\ w_db (snd (verify_master_password self other_password w5)) = w_db w5).
Proof.
  intros w5 Hclock Hst Htruthy Hbad Hclean.
  pose proof (login_attempts_succ 4 self master_password w) as Hstep. fold w5 in Hstep.
  pose proof (login_attempts_below_threshold self master_password stored w 4
                Hclock Hst Htruthy Hbad Hclean ltac:(lia)) as H4.
  cbv zeta in H4.
  pose proof (fun n => login_attempts_below_threshold self master_password stored w n
                         Hclock Hst Htruthy Hbad Hclean) as Hbelow.
  clearbody w5.
  generalize dependent (login_attempts 4 self master_password w). intros w4 -> H4.
  destruct H4 as (Hrec & Hticks & Hclk & Hpw).
  destruct (fifth_failure_locks self master_password stored w4) as (Hrec5 & Hticks5 & Hclk5);
    try assumption.
  { rewrite Hclk. apply Hclock. }
  { rewrite Hpw. exact Hst. }
  rewrite Hclk, Hticks in Hrec5.
  replace (S (w_ticks w + 2 * 4)) with (w_ticks w + 9)%nat in Hrec5 by lia.
  split; [| split; [exact Hrec5 |]].
  - intros n Hn. apply (Hbelow n Hn).
  - intros other_password Hsoon.
    apply verify_master_password_denied.
    rewrite Hrec5, Hclk5, Hclk, Hticks5, Hticks.
    replace (S (S (w_ticks w + 2 * 4))) with (w_ticks w + 10)%nat by lia.
    exact Hsoon.
Qed.

End LoginSequences.

Section Accounts.

Context {prim : Primitives}.

(** What [create_account] stores, and what it leaves alone. *)
Lemma create_account_run (self master_password recovery_pin : string) (w : World) :
  let w1 := snd (create_account self master_password recovery_pin w) in
  fst (create_account self master_password recovery_pin w) = Ret tt
  /\ db_salt (w_db w1) !! self = Some (drawn_bytes (w_entropy w) (w_drawn w) 16)
  /\ db_password (w_db w1) !! self =
       Some (ph_hash master_password (drawn_bytes (w_entropy w) (w_drawn w + 16) 16))
  /\ db_pin (w_db w1) !! self =
       Some (ph_hash recovery_pin (drawn_bytes (w_entropy w) (w_drawn w + 16 + 16) 16))
  /\ db_lockout (w_db w1) = db_lockout (w_db w)
  /\ db_totp (w_db w1) = db_totp (w_db w)
  /\ w_clock w1 = w_clock w /\ w_ticks w1 = w_ticks w.
Proof.
  intros w1. subst w1.
  name_run (create_account self master_password recovery_pin w).
  unfold create_account, DatabaseConnector.create_user_with_pin.
  open_world w. py_cbv. close_run.
  rewrite !lookup_insert_eq. auto 10.
Qed.

Lemma drawn_bytes_cons (entropy : nat -> nat) (start n : nat) :
  drawn_bytes entropy start (S n) =
    byte_of_nat (entropy start) :: drawn_bytes entropy (S start) n.
Proof. reflexivity. Qed.

(** X6.  Registration, then login.  With a hasher that accepts the secret a
    hash was made from, for a user with no lockout running and no second
    factor enrolled: [create_account] succeeds, [load_key] with the same
    password then succeeds and caches the key derived from that password and
    the 16-byte salt drawn at registration, and the recovery PIN given at
    registration is accepted. *)
Theorem create_account_then_load_key
    (self master_password recovery_pin : string) (w : World) :
  let w1 := snd (create_account self master_password recovery_pin w) in
  let salt := drawn_bytes (w_entropy w) (w_drawn w) 16 in
  argon2_sound ->
  lockout_until (lockout_of w self) <= w_clock w (w_ticks w) ->
  default "" (db_totp (w_db w) !! self) = "" ->
  fst (create_account self master_password recovery_pin w) = Ret tt
  /\ List.length salt = 16%nat
  /\ db_salt (w_db w1) !! self = Some salt
  /\ fst (load_key self master_password w1) = Ret tt
  /\ w_fer (snd (load_key self master_password w1)) = Some (pbkdf2_key salt master_password)
  /\ fst (verify_recovery_pin self recovery_pin w1) = Ret true.
Proof.
  intros w1 salt Hsound Hopen Hnototp.
  destruct (create_account_run self master_password recovery_pin w)
    as (Hret & Hsalt & Hpw & Hpin & Hlock & Htotp & Hclk & Hticks).
  fold w1 in Hsalt, Hpw, Hpin, Hlock, Htotp, Hclk, Hticks. fold salt in Hsalt.
  split; [exact Hret |]. split; [apply drawn_bytes_length |]. split; [exact Hsalt |].
  assert (Hlogin : fst (verify_master_password self master_password w1) = Ret true).
  { destruct (Hsound master_password (drawn_bytes (w_entropy w) (w_drawn w + 16) 16))
      as [Hne Hok].
    eapply verify_master_password_accepts; [| exact Hpw | | exact Hok |].
    - unfold lockout_of. rewrite Hlock, Hclk, Hticks. exact Hopen.
    - apply truthy_true. exact Hne.
    - rewrite Htotp. exact Hnototp. }
  destruct (load_key_result self master_password w1) as (Hr & Hf & _).
  rewrite Hlogin, Hsalt in Hr, Hf. subst salt.
  rewrite drawn_bytes_cons in Hr, Hf.
  split; [exact Hr |]. split; [rewrite drawn_bytes_cons; exact Hf |].
  rewrite verify_recovery_pin_result, Hpin.
  destruct (Hsound recovery_pin (drawn_bytes (w_entropy w) (w_drawn w + 16 + 16) 16))
    as [Hne Hok].
  apply truthy_true in Hne. rewrite Hne, Hok. reflexivity.
Qed.

(** [reset_master_password] does not read the clock or the input. *)
Lemma reset_master_password_clock (self new_password : string) (w : World) :
  let w1 := snd (reset_master_password self new_password w) in
  w_clock w1 = w_clock w /\ w_ticks w1 = w_ticks w /\ w_stdin w1 = w_stdin w
  /\ db_totp (w_db w1) = db_totp (w_db w).
Proof.
  intros w1. subst w1.
  name_run (reset_master_password self new_password w).
  open_world w. py_cbv. py_paths; close_run; auto.
Qed.

(** A refused login makes [get_credentials] raise, in the world the login
    check left. *)
Lemma get_credentials_denied (self site master_password : string) (w : World) :
  fst (verify_master_password self master_password w) = Ret false ->
  get_credentials self site master_password w =
    (Raise (ValueError "Invalid master password"),
     snd (verify_master_password self master_password w)).
Proof.
  intros Hno. unfold get_credentials, bind.
  destruct (verify_master_password self master_password w) as [r w1].
  cbn [fst snd] in *. subst r. reflexivity.
Qed.

(** X17.  A password change inside a session.  After
    [reset_master_password], a retrieval that still passes the previous
    password (one the hasher rejects against the new hash) raises
    [ValueError("Invalid master password")] and is counted as a failed
    login. *)
Theorem stale_password_after_reset
    (self site old_password new_password : string) (w : World) :
  let new_hash := ph_hash new_password (drawn_bytes (w_entropy w) (w_drawn w) 16) in
  let w1 := snd (reset_master_password self new_password w) in
  let w2 := snd (get_credentials self site old_password w1) in
  lockout_until (lockout_of w self) <= w_clock w (w_ticks w) ->
  new_hash <> "" ->
  ph_verify new_hash old_password = VerifyMismatch ->
  fst (get_credentials self site old_password w1)
    = Raise (ValueError "Invalid master password")
  /\ failed_attempts (lockout_of w2 self) = failed_attempts (lockout_of w self) + 1.
Proof.
  intros new_hash w1 w2 Hopen Hne Hbad.
  destruct (reset_master_password_run self new_password w)
    as (_ & Hpw & _ & _ & _ & _ & Hlock).
  destruct (reset_master_password_clock self new_password w) as (Hclk & Hticks & _).
  fold w1 in Hpw, Hlock, Hclk, Hticks. fold new_hash in Hpw.
  assert (Hsame : lockout_of w1 self = lockout_of w self)
    by (unfold lockout_of; rewrite Hlock; reflexivity).
  destruct (verify_master_password_mismatch_run self old_password new_hash w1)
    as (Hno & Hrow & _).
  - rewrite Hsame, Hclk, Hticks. exact Hopen.
  - exact Hpw.
  - apply truthy_true. exact Hne.
  - exact Hbad.
  - subst w2. rewrite (get_credentials_denied self site old_password w1 Hno).
    cbn [fst snd]. split; [reflexivity |].
    unfold lockout_of at 1. rewrite Hrow. cbn [default from_option id failed_attempts].
    rewrite Hsame. reflexivity.
Qed.

(** X18.  [reset_master_password] does not lift a lockout: the lockout
    record is the one it found, so while the lockout runs a login is denied
    with any password, the new one included, and the store is kept. *)
Theorem reset_keeps_lockout (self new_password : string) (w : World) :
  let w1 := snd (reset_master_password self new_password w) in
  lockout_of w1 self = lockout_of w self
  /\ (w_clock w (w_ticks w) < lockout_until (lockout_of w self) ->
      forall master_password,
        fst (verify_master_password self master_password w1) = Ret false
        /\ w_db (snd (verify_master_password self master_password w1)) = w_db w1).
Proof.
  intros w1.
  destruct (reset_master_password_run self new_password w)
    as (_ & _ & _ & _ & _ & _ & Hlock).
  destruct (reset_master_password_clock self new_password w) as (Hclk & Hticks & _).
  fold w1 in Hlock, Hclk, Hticks.
  assert (Hsame : lockout_of w1 self = lockout_of w self)
    by (unfold lockout_of; rewrite Hlock; reflexivity).
  split; [exact Hsame |].
  intros Hlocked master_password.
  apply verify_master_password_denied. rewrite Hsame, Hclk, Hticks. exact Hlocked.
Qed.

End Accounts.

Lemma pick_in_string (a : string) (r : nat) :
  a <> "" -> In (pick a r) (list_ascii_of_string a).
Proof.
  intros Hne. unfold pick.
  destruct (get_in_range a (r mod String.length a)) as [c Hc].
  { apply Nat.mod_upper_bound. destruct a; [congruence | discriminate]. }
  rewrite Hc. eapply get_in_string; eauto.
Qed.

Lemma chosen_in_string (a : string) (entropy : nat -> nat) (start n : nat) :
  a <> "" ->
  Forall (fun c => In c (list_ascii_of_string a))
         (list_ascii_of_string (chosen a entropy start n)).
Proof.
  intros Hne. revert start. induction n as [| n IH]; intros start; simpl; constructor.
  - apply pick_in_string. exact Hne.
  - apply IH.
Qed.

Section SecondFactor.

Context {prim : Primitives}.

Variable provisioning_uri : string -> string -> string -> string.

(** What [enable_2fa] stores, for a secret of any length. *)
Lemma enable_2fa_run (self : string) (w : World) (secret : string) :
  random_base32 w = (Ret secret, with_drawn (w_drawn w + 32)%nat w) ->
  let w1 := snd (enable_2fa provisioning_uri self w) in
  fst (enable_2fa provisioning_uri self w) = Ret tt
  /\ db_totp (w_db w1) !! self = Some secret
  /\ w_stdin w1 = w_stdin w /\ w_clock w1 = w_clock w /\ w_ticks w1 = w_ticks w
  /\ db_password (w_db w1) = db_password (w_db w)
  /\ db_lockout (w_db w1) = db_lockout (w_db w).
Proof.
  intros Hdraw w1. subst w1.
  name_run (enable_2fa provisioning_uri self w).
  unfold enable_2fa, DatabaseConnector.set_totp_secret.
  unfold bind at 1. rewrite Hdraw. clear Hdraw.
  open_world w. py_cbv. close_run. rewrite lookup_insert_eq. auto 10.
Qed.

(** What [verify_2fa] answers when a secret is enrolled. *)
Lemma verify_2fa_enrolled (self secret : string) (w : World) :
  db_totp (w_db w) !! self = Some secret ->
  secret <> "" ->
  fst (verify_2fa self w) =
    match fst (read_secure_input (w_stdin w)) with
    | Ret code => Ret (totp_verify secret (str_of_input code) (w_clock w (w_ticks w)))
    | Raise e => Raise e
    end.
Proof.
  intros Hsecret Hne. name_run (verify_2fa self w).
  destruct (read_secure_input (w_stdin w)) as [rc rest] eqn:Hin.
  apply String.eqb_neq in Hne.
  open_world w. py_cbv. rewrite Hsecret. cbn [default from_option id].
  rewrite Hne. py_cbv. rewrite Hin. py_cbv.
  py_paths; close_run; reflexivity.
Qed.

(** X15.  [enable_2fa] stores a secret of 32 base32 characters, so never an
    empty one: from then on [verify_2fa] asks for a code and answers what the
    check of that code against the secret gives, and it raises [EOFError]
    when the input has ended. *)
Theorem enable_2fa_enrols (self : string) (w : World) :
  let secret := chosen base32_chars (w_entropy w) (w_drawn w) 32 in
  let w1 := snd (enable_2fa provisioning_uri self w) in
  fst (enable_2fa provisioning_uri self w) = Ret tt
  /\ db_totp (w_db w1) !! self = Some secret
  /\ String.length secret = 32%nat
  /\ Forall (fun c => In c (list_ascii_of_string base32_chars)) (list_ascii_of_string secret)
  /\ (forall code rest,
        read_secure_input (w_stdin w) = (Ret code, rest) ->
        fst (verify_2fa self w1)
          = Ret (totp_verify secret (str_of_input code) (w_clock w (w_ticks w))))
  /\ ((forall l, In l (w_stdin w) -> l = "") -> fst (verify_2fa self w1) = Raise EOFError).
Proof.
  intros secret w1.
  generalize (chosen_length base32_chars (w_entropy w) (w_drawn w) 32).
  generalize (chosen_in_string base32_chars (w_entropy w) (w_drawn w) 32 ltac:(discriminate)).
  generalize (enable_2fa_run self w secret (join_choices_run base32_chars 32 w)).
  fold secret. fold w1. clearbody secret w1.
  intros (Hret & Htotp & Hstdin & Hclk & Hticks & _) Hin Hlen.
  assert (Hne : secret <> "")
    by (intros Heq; rewrite Heq in Hlen; simpl in Hlen; discriminate Hlen).
  pose proof (verify_2fa_enrolled self secret w1 Htotp Hne) as Hv.
  rewrite Hstdin, Hclk, Hticks in Hv.
  do 4 (split; [assumption |]).
  split.
  - intros code rest Hread. rewrite Hv, Hread. reflexivity.
  - intros Hempty. rewrite Hv, (read_secure_input_eof _ Hempty). reflexivity.
Qed.

(** X16.  After [disable_2fa] the second factor is off: [verify_2fa]
    answers [True] after one read of the store, without reading the input or
    the clock, and with the lockout elapsed a password that verifies is
    enough for [verify_master_password] to answer [True]. *)
Theorem disable_2fa_password_only (self master_password stored : string) (w : World) :
  let w1 := snd (disable_2fa self w) in
  fst (disable_2fa self w) = Ret tt
  /\ db_totp (w_db w1) !! self = None
  /\ verify_2fa self w1 = (Ret true, with_trace (w_trace w1 ++ [EvDb GetTotpSecret self]) w1)
  /\ (lockout_until (lockout_of w self) <= w_clock w (w_ticks w) ->
      db_password (w_db w) !! self = Some stored ->
      PyStr.truthy stored = true ->
      ph_verify stored master_password = VerifyOk ->
      fst (verify_master_password self master_password w1) = Ret true).
Proof.
  intros w1.
  assert (Hrun : fst (disable_2fa self w) = Ret tt
                 /\ db_totp (w_db w1) !! self = None
                 /\ db_password (w_db w1) = db_password (w_db w)
                 /\ db_lockout (w_db w1) = db_lockout (w_db w)
                 /\ w_clock w1 = w_clock w /\ w_ticks w1 = w_ticks w).
  { subst w1. name_run (disable_2fa self w). unfold disable_2fa.
    unfold DatabaseConnector.delete_totp_secret.
    open_world w. py_cbv. close_run. rewrite lookup_delete_eq. auto 10. }
  destruct Hrun as (Hret & Htotp & Hpw & Hlock & Hclk & Hticks).
  split; [exact Hret |]. split; [exact Htotp |]. split.
  - clearbody w1. open_world w1. py_cbv. rewrite Htotp. py_cbv. reflexivity.
  - intros Hopen Hst Htruthy Hok.
    eapply verify_master_password_accepts; [| rewrite Hpw; exact Hst | exact Htruthy
                                            | exact Hok | rewrite Htotp; reflexivity].
    unfold lockout_of. rewrite Hlock, Hclk, Hticks. exact Hopen.
Qed.

End SecondFactor.

Section Gates.

Context {prim : Primitives}.

(** X7.  A recovery PIN that [verify_recovery_pin] answers [False] to stops
    [add_wallet], [get_wallet] and [delete_all_data] before they do
    anything: each raises [ValueError("Invalid PIN")] in the world the PIN
    check left, where the store, the cached cipher and the entropy cursor are
    those it found. *)
Theorem rejected_pin_blocks (self pin : string) (w : World) :
  let w1 := snd (verify_recovery_pin self pin w) in
  fst (verify_recovery_pin self pin w) = Ret false ->
  (forall wallet_name username password recovery_phrase master_password,
      add_wallet self wallet_name username password recovery_phrase master_password pin w
        = (Raise (ValueError "Invalid PIN"), w1))
  /\ (forall wallet_name master_password,
         get_wallet self wallet_name master_password pin w
           = (Raise (ValueError "Invalid PIN"), w1))
  /\ (forall docs, delete_all_data self pin docs w = (Raise (ValueError "Invalid PIN"), w1))
  /\ w_db w1 = w_db w /\ w_fer w1 = w_fer w /\ w_drawn w1 = w_drawn w.
Proof.
  intros w1 Hno.
  destruct (verify_recovery_pin_frame self pin w) as (events & Hw & _).
  fold w1 in Hw.
  assert (Hpair : verify_recovery_pin self pin w = (Ret false, w1)).
  { subst w1. destruct (verify_recovery_pin self pin w) as [r w']. cbn [fst snd] in *.
    subst r. reflexivity. }
  clearbody w1.
  split; [| split; [| split]].
  - intros. unfold add_wallet, bind. rewrite Hpair. reflexivity.
  - intros. unfold get_wallet, bind. rewrite Hpair. reflexivity.
  - intros. unfold delete_all_data, bind. rewrite Hpair. reflexivity.
  - rewrite Hw. auto.
Qed.

(** Without a cached cipher nothing can be encrypted. *)
Lemma fer_encrypt_no_cipher (plaintext : string) (w : World) :
  w_fer w = None -> fer_encrypt plaintext w = (Raise no_fer, w).
Proof. intros Hnone. unfold fer_encrypt. rewrite Hnone. reflexivity. Qed.

(** X8.  [add_credentials] never raises.  When no cipher is cached (no key
    was loaded) it answers [False], prints the error and leaves the store as
    it was, whereas [add_wallet], once the PIN is accepted, and
    [add_secure_doc] raise the [AttributeError] and store nothing. *)
Theorem store_without_cipher (self : string) (w : World) :
  (forall site username password,
      exists b, fst (add_credentials self site username password w) = Ret b)
  /\ (w_fer w = None ->
      (forall site username password,
          fst (add_credentials self site username password w) = Ret false
          /\ w_db (snd (add_credentials self site username password w)) = w_db w
          /\ last (w_trace (snd (add_credentials self site username password w)))
             = Some (EvPrint (PyStr.nl +:+ "Error adding credentials: " +:+ exn_str no_fer)))
      /\ (forall wallet_name username password recovery_phrase master_password pin,
             fst (verify_recovery_pin self pin w) = Ret true ->
             fst (add_wallet self wallet_name username password recovery_phrase
                    master_password pin w) = Raise no_fer
             /\ w_db (snd (add_wallet self wallet_name username password recovery_phrase
                             master_password pin w)) = w_db w)
      /\ (forall doc_name doc_contents (docs : Docs),
             add_secure_doc self doc_name doc_contents docs w = (Raise no_fer, w))).
Proof.
  assert (Hnone : w_fer w = None ->
                  forall site username password,
                    fst (add_credentials self site username password w) = Ret false
                    /\ w_db (snd (add_credentials self site username password w)) = w_db w
                    /\ last (w_trace (snd (add_credentials self site username password w)))
                       = Some (EvPrint (PyStr.nl +:+ "Error adding credentials: "
                                        +:+ exn_str no_fer))).
  { intros Hfer site username password.
    name_run (add_credentials self site username password w).
    unfold add_credentials, generate_secure_password.
    destruct (is_gen password).
    - unfold try_except, bind at 1 2. rewrite join_choices_run.
      open_world w. py_cbv. subst. py_cbv. close_run.
      rewrite last_snoc. auto.
    - open_world w. py_cbv. subst. py_cbv. close_run.
      rewrite last_snoc. auto. }
  split.
  - intros site username password.
    destruct (w_fer w) as [k |] eqn:Hfer.
    + destruct (add_credentials_run self site username password w k Hfer)
        as (tok_u & tok_p & w' & -> & _).
      eauto.
    + destruct (Hnone eq_refl site username password) as (-> & _). eauto.
  - intros Hfer. split; [exact (Hnone Hfer) |]. split.
    + intros wallet_name username password recovery_phrase master_password pin Hpin.
      name_run (add_wallet self wallet_name username password recovery_phrase
                  master_password pin w).
      unfold add_wallet, generate_secure_password. unfold bind at 1.
      destruct (verify_recovery_pin_frame self pin w) as (events & Hw & _).
      destruct (verify_recovery_pin self pin w) as [r1 w1]. cbn [fst snd] in *.
      subst r1 w1.
      destruct (is_gen password).
      * unfold bind at 1 2. rewrite join_choices_run.
        open_world w. py_cbv. subst. py_cbv. close_run. auto.
      * open_world w. py_cbv. subst. py_cbv. close_run. auto.
    + intros doc_name doc_contents docs. unfold add_secure_doc, bind.
      rewrite (fer_encrypt_no_cipher _ _ Hfer). reflexivity.
Qed.

(** [add_wallet] keeps the cached cipher and the stored PIN hash. *)
Lemma add_wallet_frame
    (self wallet_name username password recovery_phrase master_password pin : string)
    (w : World) :
  let w1 := snd (add_wallet self wallet_name username password recovery_phrase
                   master_password pin w) in
  w_fer w1 = w_fer w /\ db_pin (w_db w1) = db_pin (w_db w).
Proof.
  intros w1. subst w1.
  name_run (add_wallet self wallet_name username password recovery_phrase
              master_password pin w).
  unfold add_wallet, generate_secure_password. unfold bind at 1.
  destruct (verify_recovery_pin_frame self pin w) as (events & Hw & _).
  destruct (verify_recovery_pin self pin w) as [[[|] | e] w1]; cbn [fst snd] in *;
    subst w1.
  - destruct (is_gen password).
    + unfold bind at 1 2. rewrite join_choices_run.
      open_world w. py_cbv. py_paths; close_run; auto.
    + open_world w. py_cbv. py_paths; close_run; auto.
  - open_world w. py_cbv. close_run. auto.
  - open_world w. py_cbv. close_run. auto.
Qed.

(** X9.  Credentials round trip.  With a cipher that decrypts what it
    encrypted, a site stored by [add_credentials] reads back, at the next
    retrieval whose login check passes, as the username and the password that
    were encrypted: the generated password for the [gen] keyword, the
    placeholder for a field given empty or as [0], and otherwise the very
    strings given. *)
Theorem credentials_round_trip
    (self site username password master_password : string) (w : World) (k : list byte) :
  let w1 := snd (add_credentials self site username password w) in
  let stored_password :=
    if is_gen password then chosen alphabet (w_entropy w) (w_drawn w) 25
    else blank_if_zero password in
  fernet_round_trip ->
  w_fer w = Some k ->
  fst (verify_master_password self master_password w1) = Ret true ->
  fst (get_credentials self site master_password w1) =
    Ret (Some (<["username" := PyStr.or_else (blank_if_zero username) "No username"]>
               (<["password" := PyStr.or_else stored_password "No password"]> ∅)))
  /\ (username <> "" -> username <> "0" -> password <> "" -> password <> "0" ->
      is_gen password = false ->
      fst (get_credentials self site master_password w1) =
        Ret (Some (<["username" := username]> (<["password" := password]> ∅)))).
Proof.
  intros w1 stored_password Hrt Hfer Hok.
  destruct (add_credentials_run self site username password w k Hfer)
    as (tok_u & tok_p & w1' & Hadd & Hsites & (iv & t & _ & Hu) & (iv' & t' & _ & Hp)
        & _ & _ & _ & Hfer1).
  fold stored_password in Hp.
  assert (Hsp : is_gen password = false -> stored_password = blank_if_zero password)
    by (intros Hg; subst stored_password; rewrite Hg; reflexivity).
  clearbody stored_password.
  assert (Hw1 : w1 = w1') by (subst w1; rewrite Hadd; reflexivity).
  clearbody w1. subst w1'.
  assert (Hget : fst (get_credentials self site master_password w1) =
    Ret (Some (<["username" := PyStr.or_else (blank_if_zero username) "No username"]>
               (<["password" := PyStr.or_else stored_password "No password"]> ∅)))).
  { rewrite get_credentials_result, Hok, Hsites, lookup_insert_eq, Hfer1, Hu, Hp.
    rewrite !Hrt. reflexivity. }
  split; [exact Hget |].
  intros Hu1 Hu2 Hp1 Hp2 Hgen.
  assert (Hplain : forall s, s <> "" -> s <> "0" ->
                             forall d, PyStr.or_else (blank_if_zero s) d = s).
  { intros s Hs1 Hs2 d. unfold blank_if_zero.
    apply String.eqb_neq in Hs2. rewrite Hs2.
    unfold PyStr.or_else. apply truthy_true in Hs1. rewrite Hs1. reflexivity. }
  rewrite Hget, (Hsp Hgen), (Hplain username Hu1 Hu2), (Hplain password Hp1 Hp2).
  reflexivity.
Qed.

(** X10.  Wallet round trip.  With a cipher that decrypts what it encrypted
    and whose tokens are not empty, a wallet stored by [add_wallet] under an
    accepted PIN reads back through [get_wallet] with the same PIN as the
    three fields that were encrypted, placeholders standing for empty ones. *)
Theorem wallet_round_trip
    (self wallet_name username password recovery_phrase master_password pin : string)
    (w : World) (k : list byte) :
  let w1 := snd (add_wallet self wallet_name username password recovery_phrase
                   master_password pin w) in
  let stored_password :=
    if is_gen password then chosen alphabet (w_entropy w) (w_drawn w) 25
    else blank_if_zero password in
  fernet_round_trip ->
  fernet_tokens_nonempty ->
  w_fer w = Some k ->
  fst (verify_recovery_pin self pin w) = Ret true ->
  fst (get_wallet self wallet_name master_password pin w1) =
    Ret (Some (<["username" := PyStr.or_else (blank_if_zero username) "No username"]>
               (<["password" := PyStr.or_else stored_password "No password"]>
                (<["recovery_phrase" :=
                     PyStr.or_else (blank_if_zero recovery_phrase) "No recovery phrase"]>
                   ∅)))).
Proof.
  intros w1 stored_password Hrt Hne Hfer Hpin.
  destruct (add_wallet_run self wallet_name username password recovery_phrase
              master_password pin w k Hfer Hpin)
    as (tok_u & tok_p & tok_r & w1' & Hadd & Hwallets
        & (iv & t & _ & Hu) & (iv' & t' & _ & Hp) & (iv'' & t'' & _ & Hr)).
  fold stored_password in Hp. clearbody stored_password.
  destruct (add_wallet_frame self wallet_name username password recovery_phrase
              master_password pin w) as (Hfer1 & Hpin1).
  fold w1 in Hfer1, Hpin1.
  assert (Hw1 : w1 = w1') by (subst w1; rewrite Hadd; reflexivity).
  clearbody w1. subst w1'.
  assert (Hpin' : fst (verify_recovery_pin self pin w1) = Ret true).
  { rewrite verify_recovery_pin_result, Hpin1, <- verify_recovery_pin_result. exact Hpin. }
  assert (Hfield : forall p iv0 t0,
             wallet_field (w_fer w1) (fernet_encrypt k p iv0 t0) = Ret p).
  { intros p iv0 t0. unfold wallet_field.
    pose proof (Hne k p iv0 t0) as Htok. apply truthy_true in Htok.
    rewrite Htok, Hfer1, Hfer, Hrt. reflexivity. }
  rewrite get_wallet_result, Hpin', Hwallets, lookup_insert_eq, Hu, Hp, Hr, !Hfield.
  reflexivity.
Qed.

(** X11.  [get_wallet] is all or nothing.  Once the PIN is accepted it never
    raises; and when the wallet exists but one of its stored tokens is not
    empty and does not decrypt under the cached cipher, or no cipher is
    cached, it returns no field at all. *)
Theorem get_wallet_all_or_nothing
    (self wallet_name master_password pin : string) (w : World) :
  fst (verify_recovery_pin self pin w) = Ret true ->
  (exists o, fst (get_wallet self wallet_name master_password pin w) = Ret o)
  /\ (forall tok_u tok_p tok_r,
         db_wallets (w_db w) !! (self, wallet_name) = Some (tok_u, tok_p, tok_r) ->
         (exists tok, (tok = tok_u \/ tok = tok_p \/ tok = tok_r) /\ tok <> ""
                      /\ match w_fer w with
                         | Some key => fernet_decrypt key tok = None
                         | None => True
                         end) ->
         fst (get_wallet self wallet_name master_password pin w) = Ret None).
Proof.
  intros Hpin. rewrite get_wallet_result, Hpin. split.
  - repeat case_match; eauto.
  - intros tok_u tok_p tok_r Hrow (tok & Hwhich & Hne & Hbad). rewrite Hrow.
    assert (Hfield : exists e, wallet_field (w_fer w) tok = Raise e).
    { unfold wallet_field. apply truthy_true in Hne. rewrite Hne.
      destruct (w_fer w); [rewrite Hbad |]; eauto. }
    destruct Hfield as [e He].
    destruct Hwhich as [-> | [-> | ->]]; rewrite He; repeat case_match; reflexivity.
Qed.

Variable bytes_decode : list byte -> option string.

(** X12.  Document round trip.  With a cipher that decrypts what it
    encrypted, a document stored by [add_secure_doc] is returned by
    [get_secure_doc] under its name with the contents that were given, and
    the retrieval changes nothing. *)
Theorem secure_doc_round_trip
    (self doc_name doc_contents master_password : string) (docs : Docs)
    (w : World) (k : list byte) :
  fernet_round_trip ->
  w_fer w = Some k ->
  exists docs' w1,
    add_secure_doc self doc_name doc_contents docs w = (Ret docs', w1)
    /\ get_secure_doc self doc_name master_password docs' w1 =
         (Ret (Some (<["name" := doc_name]> (<["contents" := doc_contents]> ∅))), w1)
    /\ (forall other, other <> doc_name -> docs' !! (self, other) = docs !! (self, other)).
Proof.
  intros Hrt Hfer.
  name_run (add_secure_doc self doc_name doc_contents docs w).
  unfold add_secure_doc. open_world w. py_cbv. subst. py_cbv. close_run.
  do 2 eexists. split; [reflexivity |]. split.
  - unfold get_secure_doc. rewrite lookup_insert_eq. py_cbv. rewrite Hrt. reflexivity.
  - intros other Hother. apply lookup_insert_ne. congruence.
Qed.

(** X13.  [get_secure_doc] never raises and checks no password.  It answers
    [None] when the document is missing, and also, after printing the error,
    when the stored contents do not decrypt or no cipher is cached; the store
    and the cached cipher are left as they were and no hash is verified. *)
Theorem get_secure_doc_fails_closed
    (self doc_name master_password : string) (docs : Docs) (w : World) :
  let r := fst (get_secure_doc self doc_name master_password docs w) in
  let w' := snd (get_secure_doc self doc_name master_password docs w) in
  (exists o, r = Ret o)
  /\ w_db w' = w_db w /\ w_fer w' = w_fer w
  /\ (exists events : list Event,
        w_trace w' = (w_trace w ++ events)%list
        /\ existsb is_hash_verify events = false
        /\ existsb touches_lockout events = false)
  /\ (docs !! (self, doc_name) = None -> r = Ret None /\ w' = w)
  /\ (forall row,
        docs !! (self, doc_name) = Some row ->
        match w_fer w with
        | Some key => fernet_decrypt key (snd row) = None
        | None => True
        end ->
        r = Ret None
        /\ exists e, (e = InvalidToken \/ e = no_fer)
                     /\ last (w_trace w') = Some (EvPrint ("Decryption error: " +:+ exn_str e))).
Proof.
  intros r w'. subst r w'.
  name_run (get_secure_doc self doc_name master_password docs w).
  unfold get_secure_doc.
  destruct (docs !! (self, doc_name)) as [row |] eqn:Hrow.
  - open_world w. py_cbv. py_paths; close_run.
    all: split; [eauto |]; split; [reflexivity |]; split; [reflexivity |].
    all: split; [first [ solve [exists []; rewrite app_nil_r; repeat split; reflexivity]
                       | solve [eexists; split; [reflexivity |]; split; reflexivity] ] |].
    all: split; [intros Hx; discriminate Hx |].
    all: intros row' [= <-] Hbad; try congruence.
    all: split; [reflexivity |]; eexists; rewrite last_snoc; eauto.
  - py_cbv. close_run.
    split; [eauto |]. split; [reflexivity |]. split; [reflexivity |].
    split; [exists []; rewrite app_nil_r; repeat split; reflexivity |].
    split; [auto | intros row Hx; discriminate Hx].
Qed.

(** X14.  [get_all_docs] never fails on an entry: it returns, in the order
    listed, the text entries and the decoded byte entries, leaving out
    exactly the byte entries whose decoding raises. *)
Theorem get_all_docs_keeps_order (encrypted_docs : list DocEntry) :
  get_all_docs bytes_decode encrypted_docs =
    omap (fun doc =>
            match doc with
            | DocStr s => Some s
            | DocBytes b => bytes_decode b
            end) encrypted_docs.
Proof.
  unfold get_all_docs.
  enough (Hgen : forall acc : list string,
             fold_left
               (fun (docs : list string) doc =>
                  match doc with
                  | DocStr s => (docs ++ [s])%list
                  | DocBytes b =>
                      match bytes_decode b with
                      | Some s => (docs ++ [s])%list
                      | None => docs
                      end
                  end) encrypted_docs acc
             = (acc ++ omap (fun doc =>
                               match doc with
                               | DocStr s => Some s
                               | DocBytes b => bytes_decode b
                               end) encrypted_docs)%list)
    by (rewrite Hgen; reflexivity).
  induction encrypted_docs as [| doc rest IH]; intros acc; simpl.
  - rewrite app_nil_r. reflexivity.
  - destruct doc as [s | b]; [| destruct (bytes_decode b) as [s |]].
    + rewrite IH, <- app_assoc. reflexivity.
    + rewrite IH, <- app_assoc. reflexivity.
    + apply IH.
Qed.

End Gates.

(** ** The reference primitives meet the laws *)

Lemma ref_open_seal (k : list byte) (p : string) :
  Reference.ref_open k (Reference.ref_seal k p) = Some p.
Proof.
  induction k as [| b k IH]; simpl; [reflexivity |].
  rewrite Ascii.eqb_refl. simpl. exact IH.
Qed.

Lemma ref_open_other (k k' : list byte) (p : string) :
  k <> k' -> Reference.ref_open k' (Reference.ref_seal k p) = None.
Proof.
  revert k'. induction k as [| a k IH]; intros [| b k'] Hne; simpl.
  - congruence.
  - destruct p; reflexivity.
  - reflexivity.
  - destruct (Ascii.eqb (ascii_of_byte a) (ascii_of_byte b)) eqn:E; [| reflexivity].
    apply Ascii.eqb_eq in E.
    assert (a = b).
    { rewrite <- (byte_of_ascii_of_byte a), <- (byte_of_ascii_of_byte b), E. reflexivity. }
    subst b. apply IH. congruence.
Qed.

Lemma reference_authentic : fernet_authentic (H := Reference.primitives).
Proof. intros k k' p iv t Hne. apply ref_open_other. exact Hne. Qed.

Lemma reference_round_trip : fernet_round_trip (H := Reference.primitives).
Proof. intros k p iv t. apply ref_open_seal. Qed.

Lemma reference_tokens_nonempty : fernet_tokens_nonempty (H := Reference.primitives).
Proof. intros k p iv t. simpl. unfold Reference.ref_encrypt. destruct k; discriminate. Qed.

(** ** The theorems at concrete worlds *)

Import Reference.

Lemma verify_master_password_locked_out_witness :
  w_clock Scenario.locked_out (w_ticks Scenario.locked_out)
    < lockout_until (lockout_of Scenario.locked_out "alice")
  /\ fst (verify_master_password "alice" "Tr0ub4dor&3" Scenario.locked_out) = Ret false.
Proof.
  assert (Hlt : w_clock Scenario.locked_out (w_ticks Scenario.locked_out)
                < lockout_until (lockout_of Scenario.locked_out "alice"))
    by (vm_compute; reflexivity).
  split; [exact Hlt |].
  destruct (verify_master_password_locked_out (prim := Reference.primitives)
              "alice" "Tr0ub4dor&3" Scenario.locked_out Hlt) as [Hrun _].
  rewrite Hrun. reflexivity.
Defined.

Lemma inc_login_failure_escalation_witness :
  db_lockout (w_db (snd (inc_login_failure "alice" Scenario.four_failures))) !! "alice"
  = Some {| failed_attempts := 5; lockout_until := 1000 + 3 * 60 |}.
Proof.
  destruct (inc_login_failure_escalation "alice" Scenario.four_failures) as (_ & Hrow & _).
  rewrite Hrow. vm_compute. reflexivity.
Defined.

Lemma lockout_reset_only_on_full_success_witness :
  db_lockout
    (w_db (snd (verify_master_password "alice" "Tr0ub4dor&3"
                  (Scenario.enrolled ["JBSWY3DPEHPK3PXP"])))) !! "alice"
  = Some DatabaseConnector.initial_lockout
  /\ fst (verify_master_password "alice" "Tr0ub4dor&3" (Scenario.enrolled ["000000"]))
     = Ret false
  /\ w_db (snd (verify_master_password "alice" "Tr0ub4dor&3" (Scenario.enrolled ["000000"])))
     = w_db (Scenario.enrolled ["000000"]).
Proof.
  split.
  - destruct (lockout_reset_only_on_full_success (prim := Reference.primitives)
                "alice" "Tr0ub4dor&3" (Scenario.enrolled ["JBSWY3DPEHPK3PXP"]))
      as (Hok & _ & _).
    apply Hok. vm_compute. reflexivity.
  - destruct (lockout_reset_only_on_full_success (prim := Reference.primitives)
                "alice" "Tr0ub4dor&3" (Scenario.enrolled ["000000"]))
      as (_ & _ & Hfail).
    apply Hfail.
    + exists "$ref$Tr0ub4dor&3". split; vm_compute; reflexivity.
    + vm_compute. discriminate.
    + intros code rest Hread. vm_compute in Hread.
      injection Hread as <- _. vm_compute. reflexivity.
Defined.

(** C4 as stated fails: with two failures on record, a correct password and
    a refused one-time code, the attempt is denied and the counter still
    reads two, where a wrong password brings it to three. *)
Lemma second_factor_failure_not_counted :
  let w := Scenario.enrolled ["000000"] in
  let w' := snd (verify_master_password "alice" "Tr0ub4dor&3" w) in
  ph_verify (Primitives := Reference.primitives) "$ref$Tr0ub4dor&3" "Tr0ub4dor&3" = VerifyOk
  /\ db_totp (w_db w) !! "alice" = Some "JBSWY3DPEHPK3PXP"
  /\ totp_verify (Primitives := Reference.primitives) "JBSWY3DPEHPK3PXP" "000000" 1001 = false
  /\ fst (verify_master_password "alice" "Tr0ub4dor&3" w) = Ret false
  /\ failed_attempts (lockout_of w "alice") = 2
  /\ failed_attempts (lockout_of w' "alice") = 2
  /\ failed_attempts (lockout_of w' "alice") <> failed_attempts (lockout_of w "alice") + 1
  /\ failed_attempts (lockout_of (snd (verify_master_password "alice" "wrong" w)) "alice") = 3.
Proof.
  vm_compute. repeat split; try reflexivity. discriminate.
Qed.

Lemma second_factor_failure_leaves_counter_witness :
  let w := Scenario.enrolled ["000000"] in
  lockout_until (lockout_of w "alice") <= w_clock w (w_ticks w)
  /\ db_password (w_db w) !! "alice" = Some "$ref$Tr0ub4dor&3"
  /\ PyStr.truthy "$ref$Tr0ub4dor&3" = true
  /\ lockout_of (snd (verify_master_password "alice" "Tr0ub4dor&3" w)) "alice"
     = lockout_of w "alice"
  /\ failed_attempts (lockout_of (snd (verify_master_password "alice" "wrong" w)) "alice")
     = failed_attempts (lockout_of w "alice") + 1.
Proof.
  intros w.
  assert (Hopen : lockout_until (lockout_of w "alice") <= w_clock w (w_ticks w))
    by (vm_compute; discriminate).
  assert (Hst : db_password (w_db w) !! "alice" = Some "$ref$Tr0ub4dor&3")
    by (vm_compute; reflexivity).
  assert (Htr : PyStr.truthy "$ref$Tr0ub4dor&3" = true) by reflexivity.
  do 3 (split; [assumption |]).
  split.
  - destruct (second_factor_failure_leaves_counter (prim := Reference.primitives)
                "alice" "Tr0ub4dor&3" "$ref$Tr0ub4dor&3" w Hopen Hst Htr) as [H2fa _].
    apply H2fa.
    + vm_compute. reflexivity.
    + vm_compute. discriminate.
    + intros code rest Hread. vm_compute in Hread.
      injection Hread as <- _. vm_compute. reflexivity.
  - destruct (second_factor_failure_leaves_counter (prim := Reference.primitives)
                "alice" "wrong" "$ref$Tr0ub4dor&3" w Hopen Hst Htr) as [_ Hbad].
    apply Hbad. vm_compute. reflexivity.
Defined.

(** C5 as stated fails: on an account without a salt [load_key] verifies the
    password, then raises instead of generating a salt; none is stored and no
    key is cached. *)
Lemma load_key_missing_salt_fails :
  let w := Scenario.no_salt in
  let w' := snd (load_key "alice" "Tr0ub4dor&3" w) in
  db_salt (w_db w) !! "alice" = None
  /\ fst (verify_master_password "alice" "Tr0ub4dor&3" w) = Ret true
  /\ fst (load_key "alice" "Tr0ub4dor&3" w) = Raise (ValueError "User salt not found")
  /\ db_salt (w_db w') !! "alice" = None
  /\ w_fer w' = None.
Proof.
  vm_compute. repeat split; reflexivity.
Qed.

Lemma salt_generated_by_reset_only_witness :
  let w := Scenario.no_salt in
  truthy_bytes (db_salt (w_db w) !! "alice") = false
  /\ fst (verify_master_password "alice" "Tr0ub4dor&3" w) = Ret true
  /\ db_salt (w_db (snd (reset_master_password "alice" "correct horse" w))) !! "alice"
     = Some (drawn_bytes (w_entropy w) (w_drawn w + 16) 16)
  /\ fst (load_key "alice" "Tr0ub4dor&3" w) = Raise (ValueError "User salt not found").
Proof.
  intros w.
  assert (Hnone : truthy_bytes (db_salt (w_db w) !! "alice") = false)
    by (vm_compute; reflexivity).
  assert (Hok : fst (verify_master_password "alice" "Tr0ub4dor&3" w) = Ret true)
    by (vm_compute; reflexivity).
  do 2 (split; [assumption |]).
  split.
  - destruct (salt_generated_by_reset_only (prim := Reference.primitives)
                "alice" "correct horse" w) as (Hheal & _).
    destruct (Hheal Hnone) as (_ & Hsalt & _). exact Hsalt.
  - destruct (salt_generated_by_reset_only (prim := Reference.primitives)
                "alice" "Tr0ub4dor&3" w) as (_ & _ & _ & _ & Hfail).
    destruct (Hfail Hnone Hok) as [Hraise _]. exact Hraise.
Defined.

Lemma reset_orphans_stored_credentials_witness :
  let k := default [] (w_fer Reference.logged_in) in
  fernet_authentic (H := Reference.primitives)
  /\ fernet_tokens_nonempty (H := Reference.primitives)
  /\ fst (get_credentials "alice" "example.com" "correct horse" Orphaned.after_reset)
     = Raise InvalidToken
  /\ fst (get_wallet "alice" "cold" "correct horse" "123456" Orphaned.after_reset)
     = Ret None
  /\ fst (get_secure_doc "alice" "notes" "correct horse" Orphaned.docs Orphaned.after_reset)
     = Ret None.
Proof.
  intros k.
  split; [exact reference_authentic |]. split; [exact reference_tokens_nonempty |].
  destruct (reset_orphans_stored_credentials (prim := Reference.primitives)
              "alice" "correct horse" Orphaned.filled k
              reference_authentic reference_tokens_nonempty)
    as (_ & _ & _ & _ & _ & k_new & salt & _ & _ & Hkey & Horphan).
  assert (Hne : k_new <> k).
  { vm_compute in Hkey. injection Hkey as <-. vm_compute. discriminate. }
  destruct (Horphan Hne) as (_ & Hsite & Hwallet & Hdoc).
  assert (Hsealed : forall p : string,
             exists q, encrypts (H := Reference.primitives) k q (Reference.ref_seal k p)).
  { intros p. exists p, (repeat Byte.x00 16), 0. split; reflexivity. }
  split; [| split].
  - assert (Hrow : db_sites (w_db Orphaned.filled) !! ("alice", "example.com")
                   = Some (Reference.ref_seal k "alice", Reference.ref_seal k "s3cret"))
      by (vm_compute; reflexivity).
    destruct (Hsite _ _ _ Hrow (or_introl (Hsealed _)) "correct horse") as [Hraise _].
    apply Hraise. vm_compute. reflexivity.
  - assert (Hrow : db_wallets (w_db Orphaned.filled) !! ("alice", "cold")
                   = Some (Reference.ref_seal k "satoshi", Reference.ref_seal k "hunter2",
                           Reference.ref_seal k "abandon ability"))
      by (vm_compute; reflexivity).
    destruct (Hwallet _ _ _ _ Hrow (or_introl (Hsealed _)) "correct horse" "123456")
      as [Hnone _].
    destruct Hnone as [Hret _]; [vm_compute; reflexivity | exact Hret].
  - assert (Hrow : Orphaned.docs !! ("alice", "notes")
                   = Some ("notes", Reference.ref_seal k "seed words"))
      by (vm_compute; reflexivity).
    unfold Orphaned.after_reset.
    rewrite (Hdoc _ _ _ _ Hrow (Hsealed _) "correct horse"). reflexivity.
Defined.

(** C7 as stated fails: on a stored PIN hash the hasher cannot parse,
    [verify_recovery_pin] raises the hasher's error instead of answering a
    boolean; the store is left as it was. *)
Lemma verify_recovery_pin_not_boolean :
  let w := Orphaned.bad_pin in
  db_pin (w_db w) !! "alice" = Some "garbage"
  /\ ph_verify (Primitives := Reference.primitives) "garbage" "123456"
     = VerifyFailure "Invalid hash"
  /\ fst (verify_recovery_pin "alice" "123456" w) = Raise (VerificationError "Invalid hash")
  /\ (forall b : bool, fst (verify_recovery_pin "alice" "123456" w) <> Ret b)
  /\ lockout_of (snd (verify_recovery_pin "alice" "123456" w)) "alice" = lockout_of w "alice".
Proof.
  vm_compute. repeat split; try reflexivity. intros b. discriminate.
Qed.

Lemma verify_recovery_pin_ignores_lockout_witness :
  fst (verify_recovery_pin "alice" "123456" Scenario.locked_out) = Ret true
  /\ lockout_of (snd (verify_recovery_pin "alice" "123456" Scenario.locked_out)) "alice"
     = lockout_of Scenario.locked_out "alice"
  /\ fst (verify_recovery_pin "alice" "123456" Orphaned.bad_pin)
     = Raise (VerificationError "Invalid hash").
Proof.
  split; [| split].
  - destruct (verify_recovery_pin_ignores_lockout (prim := Reference.primitives)
                "alice" "123456" Scenario.locked_out)
      as (_ & _ & _ & _ & Hres & _).
    destruct (Hres "$ref$123456") as [Hok _]; [vm_compute; reflexivity | reflexivity |].
    apply Hok. vm_compute. reflexivity.
  - destruct (verify_recovery_pin_ignores_lockout (prim := Reference.primitives)
                "alice" "123456" Scenario.locked_out)
      as (_ & Hsame & _).
    exact Hsame.
  - destruct (verify_recovery_pin_ignores_lockout (prim := Reference.primitives)
                "alice" "123456" Orphaned.bad_pin)
      as (_ & _ & _ & _ & Hres & _).
    destruct (Hres "garbage") as (_ & _ & Hfail); [vm_compute; reflexivity | reflexivity |].
    apply Hfail. vm_compute. reflexivity.
Defined.

Lemma zero_sentinel_stored_empty_witness :
  let k := default [] (w_fer Reference.logged_in) in
  w_fer Reference.logged_in = Some k
  /\ (exists tok_u tok_p,
        db_sites (w_db Scenario.blank_site) !! ("alice", "example.com") = Some (tok_u, tok_p)
        /\ encrypts k "" tok_u /\ encrypts k "" tok_p)
  /\ (exists tok_u tok_p tok_r,
        db_wallets (w_db Scenario.blank_wallet) !! ("alice", "cold")
          = Some (tok_u, tok_p, tok_r)
        /\ encrypts k "" tok_u /\ encrypts k "" tok_p /\ encrypts k "" tok_r).
Proof.
  intros k.
  assert (Hfer : w_fer Reference.logged_in = Some k) by (vm_compute; reflexivity).
  split; [exact Hfer |].
  destruct (zero_sentinel_stored_empty (prim := Reference.primitives)
              "alice" Reference.logged_in k Hfer) as [Hsite Hwallet].
  split.
  - destruct (Hsite "example.com" "0" "0") as (_ & tok_u & tok_p & Hrow & Hu & Hp).
    exists tok_u, tok_p. split; [exact Hrow |]. split; [apply Hu | apply Hp]; reflexivity.
  - destruct (Hwallet "cold" "0" "0" "0" "Tr0ub4dor&3" "123456")
      as (_ & tok_u & tok_p & tok_r & Hrow & Hu & Hp & Hr); [vm_compute; reflexivity |].
    exists tok_u, tok_p, tok_r. split; [exact Hrow |].
    split; [apply Hu | split; [apply Hp | apply Hr]]; reflexivity.
Defined.

Lemma gen_keyword_generates_password_witness :
  let k := default [] (w_fer Reference.logged_in) in
  let g := chosen alphabet (w_entropy Reference.logged_in) (w_drawn Reference.logged_in) 25 in
  w_fer Reference.logged_in = Some k
  /\ is_gen " Gen " = true
  /\ String.length g = 25%nat
  /\ fst (generate_secure_password 25 Scenario.reseeded) <> Ret g
  /\ (exists tok_u tok_p,
        db_sites (w_db (snd (add_credentials "alice" "example.com" "alice" " Gen "
                               Reference.logged_in))) !! ("alice", "example.com")
          = Some (tok_u, tok_p)
        /\ encrypts k g tok_p).
Proof.
  intros k g.
  assert (Hfer : w_fer Reference.logged_in = Some k) by (vm_compute; reflexivity).
  assert (Hgen : is_gen " Gen " = true) by (vm_compute; reflexivity).
  do 2 (split; [assumption |]).
  destruct (gen_keyword_generates_password (prim := Reference.primitives)
              "alice" " Gen " Reference.logged_in k Hfer Hgen)
    as (_ & Hlen & _ & Hsite & _ & Hdiff).
  split; [exact Hlen |]. split.
  - apply Hdiff. exists 0%nat. split; [lia |]. vm_compute. discriminate.
  - destruct (Hsite "example.com" "alice") as (_ & tok_u & tok_p & Hrow & Hp).
    exists tok_u, tok_p. split; [exact Hrow | exact Hp].
Defined.

Lemma empty_fields_read_as_placeholders_witness :
  let d : gmap string string :=
    <["username" := "No username"]> (<["password" := "No password"]> ∅) in
  fst (get_credentials "alice" "example.com" "Tr0ub4dor&3" Scenario.blank_site)
    = Ret (Some d)
  /\ d !! "username" <> Some "" /\ d !! "password" <> Some "".
Proof.
  intros d.
  assert (Hget : fst (get_credentials "alice" "example.com" "Tr0ub4dor&3"
                        Scenario.blank_site) = Ret (Some d))
    by (vm_compute; reflexivity).
  split; [exact Hget |].
  destruct (empty_fields_read_as_placeholders (prim := Reference.primitives)
              "alice" Scenario.blank_site) as [Hsite _].
  destruct (Hsite "example.com" "Tr0ub4dor&3" d Hget)
    as (k & tok_u & tok_p & pu & pp & _ & _ & _ & _ & _ & _ & _ & _ & Hu & Hp).
  split; assumption.
Defined.

(** ** The further properties at concrete worlds *)

Lemma reference_argon2_sound : argon2_sound (H := Reference.primitives).
Proof.
  intros secret salt. split; [discriminate |].
  simpl. unfold Reference.ref_verify, Reference.ref_hash.
  rewrite String.eqb_refl. reflexivity.
Qed.

Lemma verify_master_password_unknown_user_witness :
  let w := Reference.genesis [] in
  lockout_until (lockout_of w "mallory") <= w_clock w (w_ticks w)
  /\ truthy_opt (db_password (w_db w) !! "mallory") = false
  /\ fst (verify_master_password "mallory" "guess" w) = Ret false.
Proof.
  intros w.
  assert (Hopen : lockout_until (lockout_of w "mallory") <= w_clock w (w_ticks w))
    by (vm_compute; discriminate).
  assert (Hnone : truthy_opt (db_password (w_db w) !! "mallory") = false)
    by (vm_compute; reflexivity).
  do 2 (split; [assumption |]).
  rewrite (verify_master_password_unknown_user (prim := Reference.primitives)
             "mallory" "guess" w Hopen Hnone).
  reflexivity.
Defined.

Lemma verify_master_password_other_errors_witness :
  let w := Cases.corrupted in
  lockout_until (lockout_of w "alice") <= w_clock w (w_ticks w)
  /\ db_password (w_db w) !! "alice" = Some "garbage"
  /\ PyStr.truthy "garbage" = true
  /\ fst (verify_master_password "alice" "Tr0ub4dor&3" w) = Ret false
  /\ w_db (snd (verify_master_password "alice" "Tr0ub4dor&3" w)) = w_db w.
Proof.
  intros w.
  assert (Hopen : lockout_until (lockout_of w "alice") <= w_clock w (w_ticks w))
    by (vm_compute; discriminate).
  assert (Hst : db_password (w_db w) !! "alice" = Some "garbage")
    by (vm_compute; reflexivity).
  assert (Htr : PyStr.truthy "garbage" = true) by reflexivity.
  do 3 (split; [assumption |]).
  destruct (verify_master_password_other_errors (prim := Reference.primitives)
              "alice" "Tr0ub4dor&3" "garbage" w Hopen Hst Htr) as [Hfail _].
  destruct (Hfail "Invalid hash") as (Hr & Hdb & _); [vm_compute; reflexivity |].
  split; assumption.
Defined.

Lemma five_wrong_passwords_lock_witness :
  let w := Reference.registered in
  (forall i, 0 <= w_clock w i)
  /\ db_password (w_db w) !! "alice" = Some "$ref$Tr0ub4dor&3"
  /\ PyStr.truthy "$ref$Tr0ub4dor&3" = true
  /\ ph_verify (Primitives := Reference.primitives) "$ref$Tr0ub4dor&3" "wrong" = VerifyMismatch
  /\ lockout_of w "alice" = DatabaseConnector.initial_lockout
  /\ lockout_of Cases.five_wrong "alice"
     = {| failed_attempts := 5; lockout_until := w_clock w (w_ticks w + 9) + 180 |}.
Proof.
  intros w.
  assert (Hclock : forall i, 0 <= w_clock w i) by (intros i; simpl; lia).
  assert (Hst : db_password (w_db w) !! "alice" = Some "$ref$Tr0ub4dor&3")
    by (vm_compute; reflexivity).
  assert (Htr : PyStr.truthy "$ref$Tr0ub4dor&3" = true) by reflexivity.
  assert (Hbad : ph_verify (Primitives := Reference.primitives)
                   "$ref$Tr0ub4dor&3" "wrong" = VerifyMismatch)
    by (vm_compute; reflexivity).
  assert (Hclean : lockout_of w "alice" = DatabaseConnector.initial_lockout)
    by (vm_compute; reflexivity).
  do 5 (split; [assumption |]).
  destruct (five_wrong_passwords_lock (prim := Reference.primitives)
              "alice" "wrong" "$ref$Tr0ub4dor&3" w Hclock Hst Htr Hbad Hclean)
    as (_ & H5 & _).
  exact H5.
Defined.

Lemma create_account_then_load_key_witness :
  let w := Reference.genesis [] in
  argon2_sound (H := Reference.primitives)
  /\ lockout_until (lockout_of w "bob") <= w_clock w (w_ticks w)
  /\ default "" (db_totp (w_db w) !! "bob") = ""
  /\ fst (load_key "bob" "hunter2" (snd (create_account "bob" "hunter2" "654321" w)))
     = Ret tt.
Proof.
  intros w.
  assert (Hopen : lockout_until (lockout_of w "bob") <= w_clock w (w_ticks w))
    by (vm_compute; discriminate).
  assert (Htotp : default "" (db_totp (w_db w) !! "bob") = "") by (vm_compute; reflexivity).
  split; [exact reference_argon2_sound |]. do 2 (split; [assumption |]).
  destruct (create_account_then_load_key (prim := Reference.primitives)
              "bob" "hunter2" "654321" w reference_argon2_sound Hopen Htotp)
    as (_ & _ & _ & Hload & _).
  exact Hload.
Defined.

Lemma rejected_pin_blocks_witness :
  fst (verify_recovery_pin "alice" "000000" Reference.logged_in) = Ret false
  /\ fst (get_wallet "alice" "cold" "Tr0ub4dor&3" "000000" Reference.logged_in)
     = Raise (ValueError "Invalid PIN").
Proof.
  assert (Hno : fst (verify_recovery_pin "alice" "000000" Reference.logged_in) = Ret false)
    by (vm_compute; reflexivity).
  split; [exact Hno |].
  destruct (rejected_pin_blocks (prim := Reference.primitives)
              "alice" "000000" Reference.logged_in Hno) as (_ & Hget & _).
  rewrite Hget. reflexivity.
Defined.

Lemma credentials_round_trip_witness :
  let k := default [] (w_fer Reference.logged_in) in
  fernet_round_trip (H := Reference.primitives)
  /\ w_fer Reference.logged_in = Some k
  /\ fst (verify_master_password "alice" "Tr0ub4dor&3" Scenario.stored) = Ret true
  /\ fst (get_credentials "alice" "example.com" "Tr0ub4dor&3" Scenario.stored)
     = Ret (Some (<["username" := "alice"]> (<["password" := "s3cret"]> ∅))).
Proof.
  intros k.
  assert (Hfer : w_fer Reference.logged_in = Some k) by (vm_compute; reflexivity).
  assert (Hok : fst (verify_master_password "alice" "Tr0ub4dor&3" Scenario.stored)
                = Ret true) by (vm_compute; reflexivity).
  split; [exact reference_round_trip |]. do 2 (split; [assumption |]).
  destruct (credentials_round_trip (prim := Reference.primitives)
              "alice" "example.com" "alice" "s3cret" "Tr0ub4dor&3"
              Reference.logged_in k reference_round_trip Hfer Hok) as [_ Hplain].
  apply Hplain; try discriminate. reflexivity.
Defined.

Lemma wallet_round_trip_witness :
  let k := default [] (w_fer Reference.logged_in) in
  fernet_round_trip (H := Reference.primitives)
  /\ fernet_tokens_nonempty (H := Reference.primitives)
  /\ w_fer Reference.logged_in = Some k
  /\ fst (verify_recovery_pin "alice" "123456" Reference.logged_in) = Ret true
  /\ fst (get_wallet "alice" "cold" "Tr0ub4dor&3" "123456" Cases.with_wallet)
     = Ret (Some (<["username" := "satoshi"]>
                  (<["password" := "hunter2"]>
                   (<["recovery_phrase" := "abandon ability"]> ∅)))).
Proof.
  intros k.
  assert (Hfer : w_fer Reference.logged_in = Some k) by (vm_compute; reflexivity).
  assert (Hpin : fst (verify_recovery_pin "alice" "123456" Reference.logged_in) = Ret true)
    by (vm_compute; reflexivity).
  split; [exact reference_round_trip |]. split; [exact reference_tokens_nonempty |].
  do 2 (split; [assumption |]).
  pose proof (wallet_round_trip (prim := Reference.primitives)
                "alice" "cold" "satoshi" "hunter2" "abandon ability" "Tr0ub4dor&3" "123456"
                Reference.logged_in k reference_round_trip reference_tokens_nonempty
                Hfer Hpin) as Hback.
  exact Hback.
Defined.

Lemma get_wallet_all_or_nothing_witness :
  fst (verify_recovery_pin "alice" "123456" Cases.damaged_wallet) = Ret true
  /\ fst (get_wallet "alice" "cold" "Tr0ub4dor&3" "123456" Cases.damaged_wallet) = Ret None.
Proof.
  assert (Hpin : fst (verify_recovery_pin "alice" "123456" Cases.damaged_wallet) = Ret true)
    by (vm_compute; reflexivity).
  split; [exact Hpin |].
  destruct (get_wallet_all_or_nothing (prim := Reference.primitives)
              "alice" "cold" "Tr0ub4dor&3" "123456" Cases.damaged_wallet Hpin)
    as [_ Hnone].
  apply (Hnone "junk" "" ""); [vm_compute; reflexivity |].
  exists "junk". split; [left; reflexivity |]. split; [discriminate |].
  vm_compute. reflexivity.
Defined.

Lemma secure_doc_round_trip_witness :
  let k := default [] (w_fer Reference.logged_in) in
  fernet_round_trip (H := Reference.primitives)
  /\ w_fer Reference.logged_in = Some k
  /\ exists docs' w1,
       add_secure_doc "alice" "will" "to my cat" ∅ Reference.logged_in = (Ret docs', w1)
       /\ fst (get_secure_doc "alice" "will" "anything" docs' w1)
          = Ret (Some (<["name" := "will"]> (<["contents" := "to my cat"]> ∅))).
Proof.
  intros k.
  assert (Hfer : w_fer Reference.logged_in = Some k) by (vm_compute; reflexivity).
  split; [exact reference_round_trip |]. split; [exact Hfer |].
  destruct (secure_doc_round_trip (prim := Reference.primitives)
              "alice" "will" "to my cat" "anything" ∅ Reference.logged_in k
              reference_round_trip Hfer) as (docs' & w1 & Hadd & Hget & _).
  exists docs', w1. split; [exact Hadd |]. rewrite Hget. reflexivity.
Defined.

Lemma stale_password_after_reset_witness :
  let w := Scenario.stored in
  let new_hash := ph_hash (Primitives := Reference.primitives) "correct horse"
                    (drawn_bytes (w_entropy w) (w_drawn w) 16) in
  lockout_until (lockout_of w "alice") <= w_clock w (w_ticks w)
  /\ new_hash <> ""
  /\ ph_verify (Primitives := Reference.primitives) new_hash "Tr0ub4dor&3" = VerifyMismatch
  /\ fst (get_credentials "alice" "example.com" "Tr0ub4dor&3" Cases.changed)
     = Raise (ValueError "Invalid master password").
Proof.
  intros w new_hash.
  assert (Hopen : lockout_until (lockout_of w "alice") <= w_clock w (w_ticks w))
    by (vm_compute; discriminate).
  assert (Hne : new_hash <> "") by discriminate.
  assert (Hbad : ph_verify (Primitives := Reference.primitives) new_hash "Tr0ub4dor&3"
                 = VerifyMismatch) by (vm_compute; reflexivity).
  do 3 (split; [assumption |]).
  destruct (stale_password_after_reset (prim := Reference.primitives)
              "alice" "example.com" "Tr0ub4dor&3" "correct horse" w Hopen Hne Hbad)
    as [Hraise _].
  exact Hraise.
Defined.
